(** * Dinodeck: settings reload and the reload cascade

    A shallow embedding of [src/Dinodeck.cpp] and [src/Settings.h]:
    the constructor, [ReadInSettingsFile], [OnAssetReload],
    [ResetRenderWindow] and [ForceReload], with the collaborators whose
    sources are not at hand (the Lua state, the file helpers, the
    asset, the game and the manifest asset store) given as small models
    behind their interfaces. *)

From stdpp Require Import base option list strings gmap.
From Stdlib Require Import ZArith Lia.

Local Open Scope string_scope.
Local Open Scope list_scope.
Local Open Scope Z_scope.

(** ** The C++ [int] and [unsigned int] of the settings fields *)

Module CInt.

Definition modulus : Z := 2 ^ 32.
Definition half_modulus : Z := 2 ^ 31.

Definition in_range (z : Z) : Prop := - half_modulus <= z < half_modulus.

(** Conversion of a value to [int]: reduction modulo 2^32 into the
    signed range. *)
Definition of_Z (z : Z) : Z := (z + half_modulus) mod modulus - half_modulus.

(** Conversion [int -> unsigned int]. *)
Definition to_unsigned (z : Z) : Z := z mod modulus.

(** Conversion [unsigned int -> int]. *)
Definition of_unsigned (u : Z) : Z := of_Z u.

End CInt.

(** ** Settings.h *)

Record Settings := mkSettings {
  name : string;
  (* For the game canvas *)
  width : Z;
  height : Z;
  (* For the window on screen *)
  displayWidth : Z;
  displayHeight : Z;
  manifestPath : string;
  mainScript : string;
  onUpdate : string;
  webserver : bool;
  orientation : string
}.

(** [Settings::Settings()] *)
Definition Settings_new : Settings :=
  {| name := "CGGameLoop";
     width := 640;
     height := 360;
     displayWidth := 640;
     displayHeight := 360;
     manifestPath := "manifest.lua";
     mainScript := "main.lua";
     onUpdate := "update()";
     webserver := false;
     orientation := "portrait" |}.

(** ** Collaborators *)

(** Modelled from the spec: [LuaState] (LuaState.h is not at hand).  A
    parsed settings document is a key/value document read through the
    typed getters [GetString(key, default)],
    [GetInt(key, default)] and [GetBoolean(key, default)]; a getter
    yields the default when the key is absent (or holds a value of
    another type).  [GetInt] returns a C++ [int]. *)
Inductive LuaValue :=
| LuaString (s : string)
| LuaNumber (n : Z)
| LuaBoolean (b : bool).

Module LuaState.

Definition GetString (doc : gmap string LuaValue) (key def : string) : string :=
  match doc !! key with
  | Some (LuaString s) => s
  | _ => def
  end.

Definition GetInt (doc : gmap string LuaValue) (key : string) (def : Z) : Z :=
  match doc !! key with
  | Some (LuaNumber n) => CInt.of_Z n
  | _ => def
  end.

Definition GetBoolean (doc : gmap string LuaValue) (key : string) (def : bool) : bool :=
  match doc !! key with
  | Some (LuaBoolean b) => b
  | _ => def
  end.

End LuaState.

(** The files on disk, as the reload code observes them: each existing
    path has a modification time and, when it is run as a Lua file,
    either a parsed document or a parse failure ([None]). *)
Record File := mkFile {
  mtime : Z;
  parsed : option (gmap string LuaValue)
}.

(** Modelled from the spec: [DDFile::FileExists] (DDFile.h is not at
    hand): [FileExists(path) -> bool]. *)
Module DDFile.

Definition FileExists (fs : gmap string File) (path : string) : bool :=
  bool_decide (is_Some (fs !! path)).

End DDFile.

(** Modelled from the spec: [LuaState::DoFile]: parsing is a single
    boolean outcome; on success the document is available to the
    getters. *)
Definition DoFile (fs : gmap string File) (path : string)
  : option (gmap string LuaValue) :=
  fs !! path ≫= parsed.

(** Modelled from the spec: [Asset] (Asset.h is not at hand): a
    named, path-addressed resource with a category and the timestamp of
    its last successful load, [None] standing for "never loaded". *)
Inductive AssetType := Script | Texture | Font | Sound | SoundStream.

Record Asset := mkAsset {
  Name : string;
  Type_ : AssetType;
  Path : string;
  LastModified : option Z
}.

Definition Asset_SetTimeLastModified (t : Z) (a : Asset) : Asset :=
  {| Name := Name a; Type_ := Type_ a; Path := Path a; LastModified := Some t |}.

(** Modelled from the spec: the staleness detector [AssetStore]
    (AssetStore.h is not at hand).  [IsOutOfDate] compares the
    on-disk modification time strictly greater-than the stored one; a
    resource never loaded is always out of date, and a file that cannot
    be stat'ed is not treated as unchanged. *)
Module AssetStore.

Definition GetModifiedTimeStamp (fs : gmap string File) (a : Asset) : option Z :=
  mtime <$> fs !! Path a.

Definition IsOutOfDate (fs : gmap string File) (a : Asset) : bool :=
  match GetModifiedTimeStamp fs a, LastModified a with
  | Some now, Some last => last <? now
  | _, _ => true
  end.

End AssetStore.

(** Modelled from the spec: the application run state held by [Game]
    (Game.h is not at hand): [{NotStarted, Running, Broken}], a
    reload counter and the [isReady] flag. *)
Inductive RunState := NotStarted | Running | Broken.

Record Game := mkGame {
  runState : RunState;
  reloadCount : Z;
  isReady : bool
}.

Module Game_.

Definition new : Game :=
  {| runState := NotStarted; reloadCount := 0; isReady := false |}.

Definition IsRunning (g : Game) : bool :=
  match runState g with Running => true | _ => false end.

Definition IsReady (g : Game) : bool := isReady g.

Definition GetReloadCount (g : Game) : Z := reloadCount g.

Definition ResetReloadCount (g : Game) : Game :=
  {| runState := runState g; reloadCount := 0; isReady := isReady g |}.

(** The application is suspended, not destroyed. *)
Definition Break (g : Game) : Game :=
  {| runState := Broken; reloadCount := reloadCount g; isReady := isReady g |}.

(** Full application reset; marks the first successful load. *)
Definition Reset (g : Game) : Game :=
  {| runState := Running; reloadCount := reloadCount g; isReady := true |}.

End Game_.

(** The objects that can be registered as asset owners in the
    constructor: [mGame], [mTextureManager], [&mManifestAssetStore] and
    [mDDAudio]. *)
Inductive AssetOwner :=
| OwnerGame
| OwnerTextureManager
| OwnerManifestAssetStore
| OwnerDDAudio.

Inductive OwnerFlag := Required | Optional.

(** Modelled from the spec: [ManifestAssetStore] (ManifestAssetStore.h
    is not at hand): the owner registry (at most one owner per
    category, with a per-category optionality flag), the retained
    manifest path and the tracked [(category, path)] entries. *)
Record ManifestAssetStore := mkStore {
  owners : gmap string (AssetOwner * OwnerFlag);
  storePath : option string;
  assets : list (string * string)
}.

Module ManifestAssetStore_.

Definition new : ManifestAssetStore :=
  {| owners := ∅; storePath := None; assets := [] |}.

(** Modelled from the spec: the flag a registration gets when the
    call names none; the default argument is declared in the absent
    header.  A category is optional only when registered so. *)
Definition DefaultFlag : OwnerFlag := Required.

(** A category that is already registered keeps its owner. *)
Definition RegisterAssetOwner (category : string) (owner : AssetOwner)
    (flag : OwnerFlag) (st : ManifestAssetStore) : ManifestAssetStore :=
  match owners st !! category with
  | Some _ => st
  | None =>
      {| owners := <[category := (owner, flag)]> (owners st);
         storePath := storePath st;
         assets := assets st |}
  end.

(** Unloads every tracked asset and empties the manifest. *)
Definition Clear (st : ManifestAssetStore) : ManifestAssetStore :=
  {| owners := owners st; storePath := storePath st; assets := [] |}.

End ManifestAssetStore_.

(** ** Dinodeck.cpp *)

(** The calls the orchestrator makes on its collaborators, in program
    order; the state keeps them so that a property such as "the listener
    is notified exactly once" can be stated. *)
Inductive Call :=
| Call_Clear                                   (* mManifestAssetStore.Clear() *)
| Call_Break                                   (* mGame->Break() *)
| Call_Reset                                   (* mGame->Reset() *)
| Call_OnChange (listener : nat) (w h : Z)     (* mScreenChangeListener->OnChange(w, h) *)
| Call_FrameBufferReset (w h : Z)              (* mFrameBuffer->Reset(w, h) *)
| Call_SetTimeLastModified (t : Z).            (* mSettingsFile->SetTimeLastModified(t) *)

(** The members of [Dinodeck] that the reload code reads or writes.
    [mScreenChangeListener] is a pointer: [None] is [NULL].  The texture
    manager, the audio object and the frame buffer carry no state of
    interest here and appear as owners and as calls. *)
Record Dinodeck := mkDinodeck {
  mName : string;
  mManifestAssetStore : ManifestAssetStore;
  mSettings : Settings;
  mSettingsFile : Asset;
  mGame : Game;
  mScreenChangeListener : option nat;
  calls : list Call
}.

Definition set_mName (n : string) (d : Dinodeck) : Dinodeck :=
  {| mName := n; mManifestAssetStore := mManifestAssetStore d;
     mSettings := mSettings d; mSettingsFile := mSettingsFile d;
     mGame := mGame d; mScreenChangeListener := mScreenChangeListener d;
     calls := calls d |}.

Definition set_mManifestAssetStore (st : ManifestAssetStore) (d : Dinodeck) : Dinodeck :=
  {| mName := mName d; mManifestAssetStore := st;
     mSettings := mSettings d; mSettingsFile := mSettingsFile d;
     mGame := mGame d; mScreenChangeListener := mScreenChangeListener d;
     calls := calls d |}.

Definition set_mSettings (s : Settings) (d : Dinodeck) : Dinodeck :=
  {| mName := mName d; mManifestAssetStore := mManifestAssetStore d;
     mSettings := s; mSettingsFile := mSettingsFile d;
     mGame := mGame d; mScreenChangeListener := mScreenChangeListener d;
     calls := calls d |}.

Definition set_mSettingsFile (a : Asset) (d : Dinodeck) : Dinodeck :=
  {| mName := mName d; mManifestAssetStore := mManifestAssetStore d;
     mSettings := mSettings d; mSettingsFile := a;
     mGame := mGame d; mScreenChangeListener := mScreenChangeListener d;
     calls := calls d |}.

Definition set_mGame (g : Game) (d : Dinodeck) : Dinodeck :=
  {| mName := mName d; mManifestAssetStore := mManifestAssetStore d;
     mSettings := mSettings d; mSettingsFile := mSettingsFile d;
     mGame := g; mScreenChangeListener := mScreenChangeListener d;
     calls := calls d |}.

Definition set_mScreenChangeListener (l : option nat) (d : Dinodeck) : Dinodeck :=
  {| mName := mName d; mManifestAssetStore := mManifestAssetStore d;
     mSettings := mSettings d; mSettingsFile := mSettingsFile d;
     mGame := mGame d; mScreenChangeListener := l;
     calls := calls d |}.

Definition record (c : Call) (d : Dinodeck) : Dinodeck :=
  {| mName := mName d; mManifestAssetStore := mManifestAssetStore d;
     mSettings := mSettings d; mSettingsFile := mSettingsFile d;
     mGame := mGame d; mScreenChangeListener := mScreenChangeListener d;
     calls := calls d ++ [c] |}.

(** The collaborator calls, each with its effect on the member it
    belongs to. *)
Definition mManifestAssetStore_Clear (d : Dinodeck) : Dinodeck :=
  record Call_Clear
    (set_mManifestAssetStore (ManifestAssetStore_.Clear (mManifestAssetStore d)) d).

Definition mGame_Break (d : Dinodeck) : Dinodeck :=
  record Call_Break (set_mGame (Game_.Break (mGame d)) d).

Definition mGame_Reset (d : Dinodeck) : Dinodeck :=
  record Call_Reset (set_mGame (Game_.Reset (mGame d)) d).

Definition mSettingsFile_SetTimeLastModified (t : Z) (d : Dinodeck) : Dinodeck :=
  record (Call_SetTimeLastModified t)
    (set_mSettingsFile (Asset_SetTimeLastModified t (mSettingsFile d)) d).

(** Modelled from the spec: [SetName], [ViewWidth] and [ViewHeight] are
    members defined in Dinodeck.h, which is not at hand: the
    name setter, and the current logical surface size. *)
Definition SetName (n : string) (d : Dinodeck) : Dinodeck := set_mName n d.
Definition ViewWidth (d : Dinodeck) : Z := width (mSettings d).
Definition ViewHeight (d : Dinodeck) : Z := height (mSettings d).

(** [Dinodeck::Dinodeck(name)] *)
Definition Dinodeck_new (n : string) : Dinodeck :=
  let store := ManifestAssetStore_.new in
  let store := ManifestAssetStore_.RegisterAssetOwner "scripts" OwnerGame
                 ManifestAssetStore_.DefaultFlag store in
  (* You don't require fonts or textures for a game *)
  let store := ManifestAssetStore_.RegisterAssetOwner "textures" OwnerTextureManager
                 Optional store in
  let store := ManifestAssetStore_.RegisterAssetOwner "fonts" OwnerManifestAssetStore
                 Optional store in
  let store := ManifestAssetStore_.RegisterAssetOwner "sounds" OwnerDDAudio
                 Optional store in
  let store := ManifestAssetStore_.RegisterAssetOwner "soundstreams" OwnerDDAudio
                 Optional store in
  {| mName := n;
     mManifestAssetStore := store;
     mSettings := Settings_new;
     mSettingsFile := {| Name := "settings"; Type_ := Script;
                         Path := "settings.lua"; LastModified := None |};
     mGame := Game_.new;
     mScreenChangeListener := None;
     calls := [] |}.

(** Lines 100-109 of [ReadInSettingsFile]: get values, or assign
    defaults if not present.  The assignments run in order, so the
    defaults of [display_width] and [display_height] are the [width] and
    [height] just assigned. *)
Definition ReadSettings (luaState : gmap string LuaValue) (s : Settings) : Settings :=
  let name' := LuaState.GetString luaState "name" (name s) in
  let width' := LuaState.GetInt luaState "width" (width s) in
  let height' := LuaState.GetInt luaState "height" (height s) in
  let displayWidth' := LuaState.GetInt luaState "display_width" width' in
  let displayHeight' := LuaState.GetInt luaState "display_height" height' in
  let mainScript' := LuaState.GetString luaState "main_script" "main.lua" in
  let onUpdate' := LuaState.GetString luaState "on_update" "update()" in
  let manifestPath' := LuaState.GetString luaState "manifest" "" in
  let webserver' := LuaState.GetBoolean luaState "webserver" false in
  let orientation' := LuaState.GetString luaState "orientation" "portrait" in
  {| name := name'; width := width'; height := height';
     displayWidth := displayWidth'; displayHeight := displayHeight';
     manifestPath := manifestPath'; mainScript := mainScript';
     onUpdate := onUpdate'; webserver := webserver';
     orientation := orientation' |}.

Definition set_displayWidth (w : Z) (s : Settings) : Settings :=
  {| name := name s; width := width s; height := height s;
     displayWidth := w; displayHeight := displayHeight s;
     manifestPath := manifestPath s; mainScript := mainScript s;
     onUpdate := onUpdate s; webserver := webserver s;
     orientation := orientation s |}.

Definition set_displayHeight (h : Z) (s : Settings) : Settings :=
  {| name := name s; width := width s; height := height s;
     displayWidth := displayWidth s; displayHeight := h;
     manifestPath := manifestPath s; mainScript := mainScript s;
     onUpdate := onUpdate s; webserver := webserver s;
     orientation := orientation s |}.

Definition set_size (w h : Z) (s : Settings) : Settings :=
  {| name := name s; width := w; height := h;
     displayWidth := displayWidth s; displayHeight := displayHeight s;
     manifestPath := manifestPath s; mainScript := mainScript s;
     onUpdate := onUpdate s; webserver := webserver s;
     orientation := orientation s |}.

(** Lines 111-127 of [ReadInSettingsFile]: display width and height
    must be equal or greater than width and height. *)
Definition ClampDisplay (s : Settings) : Settings :=
  let s := if width s >? displayWidth s
           then set_displayWidth (width s) s else s in
  let s := if height s >? displayHeight s
           then set_displayHeight (height s) s else s in
  s.

(** [Dinodeck::ReadInSettingsFile(path)] *)
Definition ReadInSettingsFile (fs : gmap string File) (path : string)
    (d : Dinodeck) : bool * Dinodeck :=
  if negb (DDFile.FileExists fs path) then
    (* If the settings file doesn't exist, then the assets should be
       cleared. *)
    (false, mManifestAssetStore_Clear d)
  else
    match DoFile fs path with
    | None =>
        (* For now don't clear the asset store. *)
        (false, d)
    | Some luaState =>
        let d := set_mSettings (ClampDisplay (ReadSettings luaState (mSettings d))) d in
        let d := SetName (name (mSettings d)) d in
        (true, d)
    end.

(** [Dinodeck::ResetRenderWindow(width, height)]; the parameters are
    [unsigned int] and are assigned back to the [int] fields.  The GL
    calls are outside the model. *)
Definition ResetRenderWindow (w h : Z) (d : Dinodeck) : Dinodeck :=
  let d := set_mSettings
             (set_size (CInt.of_unsigned w) (CInt.of_unsigned h) (mSettings d)) d in
  record (Call_FrameBufferReset (ViewWidth d) (ViewHeight d)) d.

Section Orchestrator.

(** [ManifestAssetStore::Reload(path)] ([Some path]) and
    [ManifestAssetStore::Reload()] ([None]): the manifest cascade
    itself is not at hand either.  It reads the disk, drives the
    registered owners, of which the game is one, and reports one
    boolean. *)
Variable Reload :
  gmap string File → option string → ManifestAssetStore → Game →
  bool * ManifestAssetStore * Game.

Definition StoreReload (fs : gmap string File) (path : option string)
    (d : Dinodeck) : bool * Dinodeck :=
  let '(ok, st, g) := Reload fs path (mManifestAssetStore d) (mGame d) in
  (ok, set_mGame g (set_mManifestAssetStore st d)).

(** [Dinodeck::OnAssetReload(asset)] *)
Definition OnAssetReload (fs : gmap string File) (asset : Asset)
    (d : Dinodeck) : bool * Dinodeck :=
  let path := Path asset in
  let '(ok, d) := ReadInSettingsFile fs path d in
  if negb ok then
    (false, mGame_Break d)
  else if negb (DDFile.FileExists fs (manifestPath (mSettings d))) then
    (* You can't do much without assets! *)
    (false, mGame_Break (mManifestAssetStore_Clear d))
  else
    let d := match mScreenChangeListener d with
             | Some l => record (Call_OnChange l (width (mSettings d))
                                                (height (mSettings d))) d
             | None => d
             end in
    let d := ResetRenderWindow (CInt.to_unsigned (width (mSettings d)))
                               (CInt.to_unsigned (height (mSettings d))) d in
    let '(ok, d) := StoreReload fs (Some (manifestPath (mSettings d))) d in
    if negb ok then
      (false, mGame_Break d)
    else
      (true, d).

(** Modelled from the spec: [Asset::OnReload] (Asset.h is not at hand)
    hands the asset to its owner's reload operation; the owner of the
    settings asset is the [Dinodeck] itself. *)
Definition Asset_OnReload (fs : gmap string File) (asset : Asset)
    (d : Dinodeck) : bool * Dinodeck :=
  OnAssetReload fs asset d.

(** Lines 184-208 of [ForceReload]: the reload cascade and its
    outcome [resetSuccess]. *)
Definition ForceReload_cascade (fs : gmap string File) (d : Dinodeck)
    : bool * Dinodeck :=
  let d := set_mGame (Game_.ResetReloadCount (mGame d)) d in
  (* First check the settings file *)
  if AssetStore.IsOutOfDate fs (mSettingsFile d) then
    let '(resetSuccess, d) := Asset_OnReload fs (mSettingsFile d) d in
    if resetSuccess then
      (* Update the timestamp *)
      match AssetStore.GetModifiedTimeStamp fs (mSettingsFile d) with
      | Some lastModified =>
          let d := mSettingsFile_SetTimeLastModified lastModified d in
          let d := record (Call_FrameBufferReset (ViewWidth d) (ViewHeight d)) d in
          (true, d)
      | None =>
          (* never taken, see [ForceReload_cascade_stores_timestamp]: a
             reload that succeeded has found the file on this disk *)
          (true, record (Call_FrameBufferReset (ViewWidth d) (ViewHeight d)) d)
      end
    else
      (false, d)
  else
    (* But that doesn't mean the manifest or other files haven't *)
    StoreReload fs None d.

(** Lines 210-228 of [ForceReload]: the reaction of the application
    state to the outcome. *)
Definition ForceReload_react (resetSuccess : bool) (d : Dinodeck)
    : bool * Dinodeck :=
  if negb resetSuccess then
    (false, mGame_Break d)
  else if (Game_.GetReloadCount (mGame d) >? 0)
          || negb (Game_.IsRunning (mGame d)) then
    (true, mGame_Reset d)
  else if negb (Game_.IsReady (mGame d)) then
    (* If previously the game didn't even start running *)
    (true, mGame_Reset d)
  else
    (true, d).

(** [Dinodeck::ForceReload()] *)
Definition ForceReload (fs : gmap string File) (d : Dinodeck) : bool * Dinodeck :=
  let '(resetSuccess, d) := ForceReload_cascade fs d in
  ForceReload_react resetSuccess d.

End Orchestrator.

(** ** Observations on the calls of a run *)

(** The calls made between two states of one run. *)
Definition calls_since (d d' : Dinodeck) : list Call :=
  drop (length (calls d)) (calls d').

(** The notifications sent to the screen-change listener. *)
Definition OnChange_calls (cs : list Call) : list (nat * Z * Z) :=
  omap (λ c, match c with
             | Call_OnChange l w h => Some (l, w, h)
             | _ => None
             end) cs.

(** The number of full application resets. *)
Definition Reset_calls (cs : list Call) : nat :=
  length (omap (λ c, match c with Call_Reset => Some c | _ => None end) cs).

(** The timestamps stored in the settings asset. *)
Definition SetTimeLastModified_calls (cs : list Call) : list Z :=
  omap (λ c, match c with Call_SetTimeLastModified t => Some t | _ => None end) cs.

(** Whether a reload changed any of the four dimensions. *)
Definition size_changed (s s' : Settings) : bool :=
  negb ((width s =? width s') && (height s =? height s')
        && (displayWidth s =? displayWidth s')
        && (displayHeight s =? displayHeight s')).

(** The notification rule "exactly once per successful window-size
    change": one notification when the reload succeeds and a size
    changed, none otherwise. *)
Definition notified_once_per_size_change (d : Dinodeck) (r : bool * Dinodeck) : Prop :=
  length (OnChange_calls (calls_since d r.2)) =
    if r.1 && size_changed (mSettings d) (mSettings r.2) then 1%nat else 0%nat.

(** ** Concrete disks and documents used to exercise the model *)

Module Sample.

(** A settings document that names its manifest and sets the surface
    to 800x480 without naming a window size. *)
Definition settings_800x480 : gmap string LuaValue :=
  {[ "manifest" := LuaString "manifest.lua";
     "width" := LuaNumber 800;
     "height" := LuaNumber 480 ]}.

(** A settings document whose window is smaller than its surface. *)
Definition settings_small_window : gmap string LuaValue :=
  {[ "manifest" := LuaString "manifest.lua";
     "width" := LuaNumber 800;
     "height" := LuaNumber 480;
     "display_width" := LuaNumber 640;
     "display_height" := LuaNumber 360 ]}.

Definition disk_small_window (t : Z) : gmap string File :=
  {[ "settings.lua" := {| mtime := t; parsed := Some settings_small_window |};
     "manifest.lua" := {| mtime := 5; parsed := Some ∅ |} ]}.

(** A settings document without the [manifest] key. *)
Definition settings_no_manifest : gmap string LuaValue :=
  {[ "name" := LuaString "demo"; "width" := LuaNumber 320 ]}.

Definition manifest_file : File := {| mtime := 5; parsed := Some ∅ |}.

(** A disk with a good settings file saved at time [t]. *)
Definition disk_good (t : Z) : gmap string File :=
  {[ "settings.lua" := {| mtime := t; parsed := Some settings_800x480 |};
     "manifest.lua" := manifest_file ]}.

(** The settings file saved at time [t] with a syntax error. *)
Definition disk_unparsable (t : Z) : gmap string File :=
  {[ "settings.lua" := {| mtime := t; parsed := None |};
     "manifest.lua" := manifest_file ]}.

(** The settings file names a manifest that is not on disk. *)
Definition disk_no_manifest_file (t : Z) : gmap string File :=
  {[ "settings.lua" := {| mtime := t; parsed := Some settings_800x480 |} ]}.

(** The settings file omits the [manifest] key. *)
Definition disk_no_manifest_key (t : Z) : gmap string File :=
  {[ "settings.lua" := {| mtime := t; parsed := Some settings_no_manifest |};
     "manifest.lua" := manifest_file ]}.

(** A settings file that names nothing but its manifest. *)
Definition settings_manifest_only : gmap string LuaValue :=
  {[ "manifest" := LuaString "manifest.lua" ]}.

Definition disk_manifest_only (t : Z) : gmap string File :=
  {[ "settings.lua" := {| mtime := t; parsed := Some settings_manifest_only |};
     "manifest.lua" := manifest_file ]}.

(** Only the manifest is on disk. *)
Definition disk_no_settings : gmap string File :=
  {[ "manifest.lua" := manifest_file ]}.

(** A manifest cascade that succeeds and finds nothing to reload. *)
Definition reload_unchanged (fs : gmap string File) (path : option string)
    (st : ManifestAssetStore) (g : Game) : bool * ManifestAssetStore * Game :=
  (true, st, g).

(** A manifest cascade in which an owner fails. *)
Definition reload_fails (fs : gmap string File) (path : option string)
    (st : ManifestAssetStore) (g : Game) : bool * ManifestAssetStore * Game :=
  (false, st, g).

(** A window of 1024x768 over the default surface, with one tracked
    asset and a registered screen-change listener. *)
Definition running : Dinodeck :=
  let d := Dinodeck_new "dinodeck" in
  {| mName := mName d;
     mManifestAssetStore :=
       {| owners := owners (mManifestAssetStore d);
          storePath := Some "manifest.lua";
          assets := [("scripts", "main.lua")] |};
     mSettings := set_displayHeight 768 (set_displayWidth 1024 Settings_new);
     mSettingsFile := Asset_SetTimeLastModified 10 (mSettingsFile d);
     mGame := {| runState := Running; reloadCount := 0; isReady := true |};
     mScreenChangeListener := Some 7%nat;
     calls := [] |}.

(** The same application once the settings of [disk_good] have been
    applied: surface and window are 800x480. *)
(** The running application with settings edited by hand since the
    last load: another name, entry script, update hook and orientation,
    and the web server switched on. *)
Definition customised : Dinodeck :=
  set_mSettings
    {| name := "Custom"; width := 320; height := 200;
       displayWidth := 1024; displayHeight := 768;
       manifestPath := "other.lua"; mainScript := "boot.lua";
       onUpdate := "tick()"; webserver := true;
       orientation := "landscape" |}
    running.

Definition settled : Dinodeck :=
  set_mSettings
    {| name := "CGGameLoop"; width := 800; height := 480;
       displayWidth := 800; displayHeight := 480;
       manifestPath := "manifest.lua"; mainScript := "main.lua";
       onUpdate := "update()"; webserver := false;
       orientation := "portrait" |}
    running.

End Sample.

(** ** The remaining members and observations *)

(** [Dinodeck::IsRunning()] *)
Definition IsRunning (d : Dinodeck) : bool := Game_.IsRunning (mGame d).

(** [Dinodeck::OnAssetDestroyed(asset)]: nothing to do. *)
Definition OnAssetDestroyed (asset : Asset) (d : Dinodeck) : Dinodeck := d.

(** The number of times the game was broken, and the store cleared. *)
Definition Break_calls (cs : list Call) : nat :=
  length (omap (λ c, match c with Call_Break => Some c | _ => None end) cs).

Definition Clear_calls (cs : list Call) : nat :=
  length (omap (λ c, match c with Call_Clear => Some c | _ => None end) cs).

(** The window covers the surface in both dimensions. *)
Definition display_covers_surface (s : Settings) : Prop :=
  width s <= displayWidth s ∧ height s <= displayHeight s.

(** The four dimensions are C++ [int] values and the window covers the
    surface. *)
Definition Settings_wf (s : Settings) : Prop :=
  CInt.in_range (width s) ∧ CInt.in_range (height s) ∧
  CInt.in_range (displayWidth s) ∧ CInt.in_range (displayHeight s) ∧
  display_covers_surface s.

(** ** Properties of the settings reader *)

Lemma FileExists_true (fs : gmap string File) path :
  DDFile.FileExists fs path = true ↔ is_Some (fs !! path).
Proof. unfold DDFile.FileExists. apply bool_decide_eq_true. Qed.

Lemma FileExists_false (fs : gmap string File) path :
  DDFile.FileExists fs path = false ↔ fs !! path = None.
Proof.
  unfold DDFile.FileExists. rewrite bool_decide_eq_false.
  rewrite <- eq_None_not_Some. reflexivity.
Qed.

Lemma DoFile_exists (fs : gmap string File) path luaState :
  DoFile fs path = Some luaState → DDFile.FileExists fs path = true.
Proof.
  unfold DoFile. intros H. apply FileExists_true.
  destruct (fs !! path); [eauto | discriminate].
Qed.

Lemma CInt_of_Z_in_range z : CInt.in_range (CInt.of_Z z).
Proof.
  unfold CInt.in_range, CInt.of_Z, CInt.modulus, CInt.half_modulus.
  pose proof (Z.mod_pos_bound (z + 2 ^ 31) (2 ^ 32) ltac:(lia)). lia.
Qed.

Lemma CInt_of_Z_id z : CInt.in_range z → CInt.of_Z z = z.
Proof.
  unfold CInt.in_range, CInt.of_Z, CInt.modulus, CInt.half_modulus. intros H.
  rewrite Z.mod_small by lia. lia.
Qed.

(** An [int] passed through an [unsigned int] parameter and assigned
    back is unchanged. *)
Lemma CInt_unsigned_roundtrip z :
  CInt.in_range z → CInt.of_unsigned (CInt.to_unsigned z) = z.
Proof.
  unfold CInt.of_unsigned, CInt.to_unsigned, CInt.of_Z, CInt.in_range,
    CInt.modulus, CInt.half_modulus.
  intros H. rewrite Zplus_mod_idemp_l. rewrite Z.mod_small by lia. lia.
Qed.

Lemma ClampDisplay_width s : width (ClampDisplay s) = width s.
Proof. unfold ClampDisplay. repeat case_match; reflexivity. Qed.

Lemma ClampDisplay_height s : height (ClampDisplay s) = height s.
Proof. unfold ClampDisplay. repeat case_match; reflexivity. Qed.

Lemma ClampDisplay_displayWidth s :
  displayWidth (ClampDisplay s) = Z.max (displayWidth s) (width s).
Proof.
  unfold ClampDisplay.
  destruct (Z.gtb_spec (width s) (displayWidth s)); simpl;
    destruct (Z.gtb_spec (height s) (displayHeight s)); simpl; lia.
Qed.

Lemma ClampDisplay_displayHeight s :
  displayHeight (ClampDisplay s) = Z.max (displayHeight s) (height s).
Proof.
  unfold ClampDisplay.
  destruct (Z.gtb_spec (width s) (displayWidth s)); simpl;
    destruct (Z.gtb_spec (height s) (displayHeight s)); simpl; lia.
Qed.

Lemma ClampDisplay_manifestPath s : manifestPath (ClampDisplay s) = manifestPath s.
Proof. unfold ClampDisplay. repeat case_match; reflexivity. Qed.

(** A display that already covers the surface is left as it is. *)
Lemma ClampDisplay_fixed s :
  width s <= displayWidth s → height s <= displayHeight s → ClampDisplay s = s.
Proof.
  intros Hw Hh. unfold ClampDisplay.
  destruct (Z.gtb_spec (width s) (displayWidth s)); [lia |].
  destruct (Z.gtb_spec (height s) (displayHeight s)); [lia |].
  reflexivity.
Qed.

(** What a successful [ReadInSettingsFile] leaves behind. *)
Lemma ReadInSettingsFile_true fs path d d' :
  ReadInSettingsFile fs path d = (true, d') →
  ∃ luaState,
    DDFile.FileExists fs path = true ∧
    DoFile fs path = Some luaState ∧
    d' = SetName (name (ClampDisplay (ReadSettings luaState (mSettings d))))
           (set_mSettings (ClampDisplay (ReadSettings luaState (mSettings d))) d).
Proof.
  unfold ReadInSettingsFile.
  destruct (DDFile.FileExists fs path) eqn:He; simpl; [| discriminate].
  destruct (DoFile fs path) as [luaState |] eqn:Hd; [| discriminate].
  intros [= <-]. exists luaState. auto.
Qed.

Lemma ReadInSettingsFile_parsed fs path d luaState :
  DoFile fs path = Some luaState →
  ReadInSettingsFile fs path d =
    (true, SetName (name (ClampDisplay (ReadSettings luaState (mSettings d))))
             (set_mSettings (ClampDisplay (ReadSettings luaState (mSettings d))) d)).
Proof.
  intros Hd. unfold ReadInSettingsFile.
  rewrite (DoFile_exists _ _ _ Hd), Hd. reflexivity.
Qed.

(** C3: a settings file that exists but fails to parse makes
    [ReadInSettingsFile] return false with nothing assigned: every
    settings field keeps its previous value, the manifest asset store is
    not cleared, and no collaborator is called; the whole state is the
    one before the call. *)
Theorem ReadInSettingsFile_parse_failure fs path d :
  DDFile.FileExists fs path = true →
  DoFile fs path = None →
  (ReadInSettingsFile fs path d).1 = false ∧
  mSettings (ReadInSettingsFile fs path d).2 = mSettings d ∧
  mManifestAssetStore (ReadInSettingsFile fs path d).2 = mManifestAssetStore d ∧
  calls (ReadInSettingsFile fs path d).2 = calls d ∧
  (ReadInSettingsFile fs path d).2 = d.
Proof.
  intros He Hd. unfold ReadInSettingsFile. rewrite He, Hd. simpl. auto.
Qed.

Lemma ReadInSettingsFile_parse_failure_witness :
  (ReadInSettingsFile (Sample.disk_unparsable 20) "settings.lua" Sample.running).1 = false ∧
  mSettings (ReadInSettingsFile (Sample.disk_unparsable 20) "settings.lua" Sample.running).2
    = mSettings Sample.running ∧
  assets (mManifestAssetStore
            (ReadInSettingsFile (Sample.disk_unparsable 20) "settings.lua" Sample.running).2)
    = [("scripts", "main.lua")].
Proof.
  destruct (ReadInSettingsFile_parse_failure
              (Sample.disk_unparsable 20) "settings.lua" Sample.running)
    as (H1 & H2 & H3 & _); [reflexivity | reflexivity |].
  rewrite H3. auto.
Defined.

(** C5: after a successful [ReadInSettingsFile] the window is at least
    as large as the surface in both dimensions: a window dimension read
    smaller than the surface dimension is raised to it, and the surface
    dimensions are the ones read, untouched by the clamp. *)
Theorem ReadInSettingsFile_display_covers_surface fs path d d' :
  ReadInSettingsFile fs path d = (true, d') →
  ∃ luaState,
    DoFile fs path = Some luaState ∧
    width (mSettings d') = width (ReadSettings luaState (mSettings d)) ∧
    height (mSettings d') = height (ReadSettings luaState (mSettings d)) ∧
    displayWidth (mSettings d') =
      Z.max (displayWidth (ReadSettings luaState (mSettings d))) (width (mSettings d')) ∧
    displayHeight (mSettings d') =
      Z.max (displayHeight (ReadSettings luaState (mSettings d))) (height (mSettings d')) ∧
    displayWidth (mSettings d') >= width (mSettings d') ∧
    displayHeight (mSettings d') >= height (mSettings d').
Proof.
  intros H. apply ReadInSettingsFile_true in H as (luaState & _ & Hd & ->).
  exists luaState. split; [exact Hd |]. cbn [SetName set_mName set_mSettings mSettings].
  rewrite ClampDisplay_width, ClampDisplay_height,
    ClampDisplay_displayWidth, ClampDisplay_displayHeight.
  repeat split; lia.
Qed.

Lemma ReadInSettingsFile_display_covers_surface_witness :
  ReadInSettingsFile (Sample.disk_small_window 20) "settings.lua" Sample.running
    = (true, (ReadInSettingsFile (Sample.disk_small_window 20) "settings.lua"
                Sample.running).2) ∧
  displayWidth (mSettings (ReadInSettingsFile (Sample.disk_small_window 20)
                             "settings.lua" Sample.running).2) >= 800 ∧
  displayHeight (mSettings (ReadInSettingsFile (Sample.disk_small_window 20)
                              "settings.lua" Sample.running).2) >= 480.
Proof.
  split; [reflexivity |].
  destruct (ReadInSettingsFile_display_covers_surface
              (Sample.disk_small_window 20) "settings.lua" Sample.running _ eq_refl)
    as (luaState & _ & _ & _ & _ & _ & Hw & Hh).
  split; [exact Hw | exact Hh].
Defined.

(** With the window size left out, the window takes the size of the
    surface just read, whatever the settings held before. *)
Lemma ReadSettings_display_default luaState s w h :
  luaState !! "width" = Some (LuaNumber w) →
  luaState !! "height" = Some (LuaNumber h) →
  luaState !! "display_width" = None →
  luaState !! "display_height" = None →
  width (ReadSettings luaState s) = CInt.of_Z w ∧
  height (ReadSettings luaState s) = CInt.of_Z h ∧
  displayWidth (ReadSettings luaState s) = CInt.of_Z w ∧
  displayHeight (ReadSettings luaState s) = CInt.of_Z h.
Proof.
  intros Hw Hh Hdw Hdh. unfold ReadSettings, LuaState.GetInt. simpl.
  rewrite Hw, Hh, Hdw, Hdh. auto.
Qed.

(** C7: a settings document with width=800 and height=480 and no
    display_width or display_height is read successfully to a window of
    800x480: the omitted window dimensions default to the surface
    dimensions just read, not to the previous window size. *)
Theorem ReadInSettingsFile_display_defaults_800x480 fs path d luaState :
  DoFile fs path = Some luaState →
  luaState !! "width" = Some (LuaNumber 800) →
  luaState !! "height" = Some (LuaNumber 480) →
  luaState !! "display_width" = None →
  luaState !! "display_height" = None →
  (ReadInSettingsFile fs path d).1 = true ∧
  width (mSettings (ReadInSettingsFile fs path d).2) = 800 ∧
  height (mSettings (ReadInSettingsFile fs path d).2) = 480 ∧
  displayWidth (mSettings (ReadInSettingsFile fs path d).2) = 800 ∧
  displayHeight (mSettings (ReadInSettingsFile fs path d).2) = 480.
Proof.
  intros Hd Hw Hh Hdw Hdh.
  rewrite (ReadInSettingsFile_parsed _ _ _ _ Hd).
  cbn [fst snd SetName set_mName set_mSettings mSettings].
  rewrite ClampDisplay_width, ClampDisplay_height,
    ClampDisplay_displayWidth, ClampDisplay_displayHeight.
  destruct (ReadSettings_display_default luaState (mSettings d) 800 480 Hw Hh Hdw Hdh)
    as (-> & -> & -> & ->).
  change (CInt.of_Z 800) with 800. change (CInt.of_Z 480) with 480.
  repeat split; lia.
Qed.

(** The previous window, 1024x768, is larger than the new surface and
    is still replaced. *)
Lemma ReadInSettingsFile_display_defaults_800x480_witness :
  displayWidth (mSettings Sample.running) = 1024 ∧
  displayHeight (mSettings Sample.running) = 768 ∧
  displayWidth (mSettings (ReadInSettingsFile (Sample.disk_good 20) "settings.lua"
                             Sample.running).2) = 800 ∧
  displayHeight (mSettings (ReadInSettingsFile (Sample.disk_good 20) "settings.lua"
                              Sample.running).2) = 480.
Proof.
  split; [reflexivity |]. split; [reflexivity |].
  destruct (ReadInSettingsFile_display_defaults_800x480
              (Sample.disk_good 20) "settings.lua" Sample.running
              Sample.settings_800x480)
    as (_ & _ & _ & Hw & Hh); [reflexivity .. |].
  split; [exact Hw | exact Hh].
Defined.

(** C8: the dimension clamp is idempotent: for every settings value,
    clamping twice gives the same settings as clamping once. *)
Theorem ClampDisplay_idempotent s :
  ClampDisplay (ClampDisplay s) = ClampDisplay s.
Proof.
  apply ClampDisplay_fixed.
  - rewrite ClampDisplay_width, ClampDisplay_displayWidth. lia.
  - rewrite ClampDisplay_height, ClampDisplay_displayHeight. lia.
Qed.

(** ** Properties of the settings reload *)

Lemma calls_since_app d d' cs : calls d' = calls d ++ cs → calls_since d d' = cs.
Proof. unfold calls_since. intros ->. apply drop_app_length. Qed.

Lemma calls_record c d : calls (record c d) = calls d ++ [c].
Proof. reflexivity. Qed.

Lemma calls_mGame_Break d : calls (mGame_Break d) = calls d ++ [Call_Break].
Proof. reflexivity. Qed.

Lemma calls_mManifestAssetStore_Clear d :
  calls (mManifestAssetStore_Clear d) = calls d ++ [Call_Clear].
Proof. reflexivity. Qed.

Section OnAssetReload_properties.

Variable Reload :
  gmap string File → option string → ManifestAssetStore → Game →
  bool * ManifestAssetStore * Game.

Lemma calls_StoreReload fs path d :
  calls (StoreReload Reload fs path d).2 = calls d.
Proof.
  unfold StoreReload. destruct (Reload _ _ _ _) as [[ok st] g]. reflexivity.
Qed.

Lemma mSettingsFile_StoreReload fs path d :
  mSettingsFile (StoreReload Reload fs path d).2 = mSettingsFile d.
Proof.
  unfold StoreReload. destruct (Reload _ _ _ _) as [[ok st] g]. reflexivity.
Qed.

(** The settings file is missing. *)
Lemma OnAssetReload_settings_missing fs asset d :
  DDFile.FileExists fs (Path asset) = false →
  OnAssetReload Reload fs asset d = (false, mGame_Break (mManifestAssetStore_Clear d)).
Proof.
  intros He. unfold OnAssetReload, ReadInSettingsFile. rewrite He. reflexivity.
Qed.

(** The settings file is there and does not parse. *)
Lemma OnAssetReload_unparsable fs asset d :
  DDFile.FileExists fs (Path asset) = true →
  DoFile fs (Path asset) = None →
  OnAssetReload Reload fs asset d = (false, mGame_Break d).
Proof.
  intros He Hd. unfold OnAssetReload, ReadInSettingsFile. rewrite He, Hd. reflexivity.
Qed.

(** The settings parse and the manifest they name is missing. *)
Lemma OnAssetReload_manifest_missing fs asset d luaState :
  DoFile fs (Path asset) = Some luaState →
  DDFile.FileExists fs (LuaState.GetString luaState "manifest" "") = false →
  OnAssetReload Reload fs asset d =
    (false, mGame_Break (mManifestAssetStore_Clear (ReadInSettingsFile fs (Path asset) d).2)).
Proof.
  intros Hd Hm. unfold OnAssetReload.
  rewrite (ReadInSettingsFile_parsed _ _ _ _ Hd).
  cbn [negb fst snd SetName set_mName set_mSettings mSettings].
  rewrite ClampDisplay_manifestPath. cbn [ReadSettings manifestPath].
  rewrite Hm. reflexivity.
Qed.

(** The settings parse and the manifest they name is on disk: the
    listener, if any, is notified, the render window is reset and the
    manifest cascade runs. *)
Lemma OnAssetReload_manifest_present fs asset d luaState :
  DoFile fs (Path asset) = Some luaState →
  DDFile.FileExists fs (LuaState.GetString luaState "manifest" "") = true →
  let d1 := (ReadInSettingsFile fs (Path asset) d).2 in
  let d2 := match mScreenChangeListener d1 with
            | Some l => record (Call_OnChange l (width (mSettings d1))
                                               (height (mSettings d1))) d1
            | None => d1
            end in
  let d3 := ResetRenderWindow (CInt.to_unsigned (width (mSettings d2)))
                              (CInt.to_unsigned (height (mSettings d2))) d2 in
  let r := StoreReload Reload fs (Some (manifestPath (mSettings d3))) d3 in
  OnAssetReload Reload fs asset d =
    if r.1 then (true, r.2) else (false, mGame_Break r.2).
Proof.
  intros Hd Hm. unfold OnAssetReload.
  rewrite (ReadInSettingsFile_parsed _ _ _ _ Hd).
  cbn [negb fst snd SetName set_mName set_mSettings mSettings].
  rewrite ClampDisplay_manifestPath. cbn [ReadSettings manifestPath].
  rewrite Hm. cbn [negb].
  destruct (StoreReload _ _ _ _) as [[] d4]; reflexivity.
Qed.

(** C1: when the settings file does not exist, or parses but names a
    manifest path that does not exist, the reload clears the manifest
    asset store of every tracked asset, breaks the game and
    [OnAssetReload] returns false; the calls made are exactly one
    [Clear] followed by one [Break]. *)
Theorem OnAssetReload_config_missing fs asset d :
  (DDFile.FileExists fs (Path asset) = false ∨
   ∃ luaState,
     DoFile fs (Path asset) = Some luaState ∧
     DDFile.FileExists fs (LuaState.GetString luaState "manifest" "") = false) →
  (OnAssetReload Reload fs asset d).1 = false ∧
  assets (mManifestAssetStore (OnAssetReload Reload fs asset d).2) = [] ∧
  runState (mGame (OnAssetReload Reload fs asset d).2) = Broken ∧
  calls_since d (OnAssetReload Reload fs asset d).2 = [Call_Clear; Call_Break].
Proof.
  intros [He | (luaState & Hd & Hm)].
  - rewrite (OnAssetReload_settings_missing _ _ _ He). cbn [fst snd].
    repeat split. apply calls_since_app.
    rewrite calls_mGame_Break, calls_mManifestAssetStore_Clear, <- app_assoc. reflexivity.
  - rewrite (OnAssetReload_manifest_missing _ _ _ _ Hd Hm). cbn [fst snd].
    repeat split. apply calls_since_app.
    rewrite calls_mGame_Break, calls_mManifestAssetStore_Clear, <- app_assoc.
    rewrite (ReadInSettingsFile_parsed _ _ _ _ Hd). reflexivity.
Qed.

(** C6: a settings document that parses but has no [manifest] key
    yields the empty manifest path, not the constructor's
    ["manifest.lua"] nor the path held before; as the empty path names
    no file, the manifest-existence check fails: the store is cleared,
    the game is broken and the reload returns false. *)
Theorem OnAssetReload_manifest_key_required fs asset d luaState :
  DoFile fs (Path asset) = Some luaState →
  luaState !! "manifest" = None →
  DDFile.FileExists fs "" = false →
  (ReadInSettingsFile fs (Path asset) d).1 = true ∧
  manifestPath (mSettings (ReadInSettingsFile fs (Path asset) d).2) = "" ∧
  (OnAssetReload Reload fs asset d).1 = false ∧
  manifestPath (mSettings (OnAssetReload Reload fs asset d).2) = "" ∧
  assets (mManifestAssetStore (OnAssetReload Reload fs asset d).2) = [] ∧
  runState (mGame (OnAssetReload Reload fs asset d).2) = Broken.
Proof.
  intros Hd Hk He.
  assert (Hg : LuaState.GetString luaState "manifest" "" = "").
  { unfold LuaState.GetString. rewrite Hk. reflexivity. }
  assert (Hp : manifestPath (mSettings (ReadInSettingsFile fs (Path asset) d).2) = "").
  { rewrite (ReadInSettingsFile_parsed _ _ _ _ Hd).
    cbn [snd SetName set_mName set_mSettings mSettings].
    rewrite ClampDisplay_manifestPath. exact Hg. }
  rewrite <- Hg in He.
  rewrite (OnAssetReload_manifest_missing _ _ _ _ Hd He). cbn [fst snd].
  split; [rewrite (ReadInSettingsFile_parsed _ _ _ _ Hd); reflexivity |].
  split; [exact Hp |]. repeat split. exact Hp.
Qed.

(** The calls of a reload that reaches the manifest cascade. *)
Lemma OnAssetReload_manifest_present_calls fs asset d luaState :
  DoFile fs (Path asset) = Some luaState →
  DDFile.FileExists fs (LuaState.GetString luaState "manifest" "") = true →
  let d1 := (ReadInSettingsFile fs (Path asset) d).2 in
  ∃ w h,
    calls (OnAssetReload Reload fs asset d).2 =
      calls d
      ++ match mScreenChangeListener d with
         | Some l => [Call_OnChange l (width (mSettings d1)) (height (mSettings d1))]
         | None => []
         end
      ++ [Call_FrameBufferReset w h]
      ++ (if (OnAssetReload Reload fs asset d).1 then [] else [Call_Break]).
Proof.
  intros Hd Hm d1.
  rewrite (OnAssetReload_manifest_present _ _ _ _ Hd Hm). fold d1.
  assert (Hl : mScreenChangeListener d1 = mScreenChangeListener d).
  { subst d1. rewrite (ReadInSettingsFile_parsed _ _ _ _ Hd). reflexivity. }
  assert (Hc : calls d1 = calls d).
  { subst d1. rewrite (ReadInSettingsFile_parsed _ _ _ _ Hd). reflexivity. }
  rewrite Hl. clearbody d1.
  destruct (mScreenChangeListener d) as [l |];
    match goal with
    | |- context [StoreReload Reload fs ?p ?x] =>
        pose proof (calls_StoreReload fs p x) as Hs;
        destruct (StoreReload Reload fs p x) as [ok d4]
    end;
    cbn [fst snd] in Hs;
    unfold ResetRenderWindow in Hs; rewrite calls_record in Hs;
    cbn [calls set_mSettings record] in Hs; rewrite Hc in Hs;
    eexists _, _;
    destruct ok; cbn [fst snd]; rewrite ?calls_mGame_Break, Hs, <- ?app_assoc;
    reflexivity.
Qed.

(** C9, as the code has it: during each [OnAssetReload] the
    registered screen-change listener is notified exactly once, with
    the surface width and height just read, when a listener is
    registered, the settings file has been read and the manifest file
    it names exists, whether or not any size changed and whether or
    not the manifest cascade that follows succeeds; in every other
    case it is not notified. *)
Theorem OnAssetReload_OnChange_calls fs asset d :
  OnChange_calls (calls_since d (OnAssetReload Reload fs asset d).2) =
    match mScreenChangeListener d, ReadInSettingsFile fs (Path asset) d with
    | Some l, (true, d1) =>
        if DDFile.FileExists fs (manifestPath (mSettings d1))
        then [(l, width (mSettings d1), height (mSettings d1))]
        else []
    | _, _ => []
    end.
Proof.
  destruct (DDFile.FileExists fs (Path asset)) eqn:He.
  2: { rewrite (OnAssetReload_settings_missing _ _ _ He).
       unfold ReadInSettingsFile. rewrite He. cbn [negb fst snd].
       rewrite (calls_since_app d _ [Call_Clear; Call_Break])
         by (rewrite calls_mGame_Break, calls_mManifestAssetStore_Clear, <- app_assoc; reflexivity).
       destruct (mScreenChangeListener d); reflexivity. }
  destruct (DoFile fs (Path asset)) as [luaState |] eqn:Hd.
  2: { rewrite (OnAssetReload_unparsable _ _ _ He Hd).
       unfold ReadInSettingsFile. rewrite He, Hd. cbn [negb fst snd].
       rewrite (calls_since_app d _ [Call_Break]) by apply calls_mGame_Break.
       destruct (mScreenChangeListener d); reflexivity. }
  pose proof (ReadInSettingsFile_parsed fs (Path asset) d luaState Hd) as Hr.
  assert (Hp : manifestPath (mSettings (ReadInSettingsFile fs (Path asset) d).2)
               = LuaState.GetString luaState "manifest" "").
  { rewrite Hr. cbn [snd SetName set_mName set_mSettings mSettings].
    apply ClampDisplay_manifestPath. }
  destruct (DDFile.FileExists fs (LuaState.GetString luaState "manifest" "")) eqn:Hm.
  - destruct (OnAssetReload_manifest_present_calls _ _ d _ Hd Hm) as (w & h & Hcs).
    apply calls_since_app in Hcs. rewrite Hcs.
    rewrite Hr in Hp |- *. cbn [snd] in Hp |- *. rewrite Hp, Hm.
    unfold OnChange_calls. rewrite !omap_app.
    destruct (mScreenChangeListener d), (OnAssetReload Reload fs asset d).1;
      reflexivity.
  - rewrite (OnAssetReload_manifest_missing _ _ _ _ Hd Hm).
    rewrite Hr in Hp |- *. cbn [snd] in Hp |- *. rewrite Hp, Hm.
    rewrite (calls_since_app d _ [Call_Clear; Call_Break])
      by (rewrite calls_mGame_Break, calls_mManifestAssetStore_Clear, <- app_assoc; reflexivity).
    destruct (mScreenChangeListener d); reflexivity.
Qed.

End OnAssetReload_properties.

Lemma OnAssetReload_config_missing_witness :
  (calls_since Sample.running
     (OnAssetReload Sample.reload_unchanged Sample.disk_no_settings
        (mSettingsFile Sample.running) Sample.running).2 = [Call_Clear; Call_Break] ∧
   assets (mManifestAssetStore
             (OnAssetReload Sample.reload_unchanged Sample.disk_no_settings
                (mSettingsFile Sample.running) Sample.running).2) = []) ∧
  (OnAssetReload Sample.reload_unchanged (Sample.disk_no_manifest_file 20)
     (mSettingsFile Sample.running) Sample.running).1 = false ∧
  runState (mGame (OnAssetReload Sample.reload_unchanged (Sample.disk_no_manifest_file 20)
                     (mSettingsFile Sample.running) Sample.running).2) = Broken.
Proof.
  split.
  - destruct (OnAssetReload_config_missing Sample.reload_unchanged
                Sample.disk_no_settings (mSettingsFile Sample.running) Sample.running)
      as (_ & Ha & _ & Hc); [left; reflexivity |].
    split; [exact Hc | exact Ha].
  - destruct (OnAssetReload_config_missing Sample.reload_unchanged
                (Sample.disk_no_manifest_file 20) (mSettingsFile Sample.running)
                Sample.running)
      as (Hr & _ & Hb & _).
    + right. exists Sample.settings_800x480. split; reflexivity.
    + split; [exact Hr | exact Hb].
Defined.

(** A file called [manifest.lua] is on disk and was the manifest in use;
    the document without the key does not fall back on it. *)
Lemma OnAssetReload_manifest_key_required_witness :
  manifestPath (mSettings Sample.running) = "manifest.lua" ∧
  DDFile.FileExists (Sample.disk_no_manifest_key 20) "manifest.lua" = true ∧
  (OnAssetReload Sample.reload_unchanged (Sample.disk_no_manifest_key 20)
     (mSettingsFile Sample.running) Sample.running).1 = false ∧
  manifestPath (mSettings
     (OnAssetReload Sample.reload_unchanged (Sample.disk_no_manifest_key 20)
        (mSettingsFile Sample.running) Sample.running).2) = "".
Proof.
  split; [reflexivity |]. split; [reflexivity |].
  destruct (OnAssetReload_manifest_key_required Sample.reload_unchanged
              (Sample.disk_no_manifest_key 20) (mSettingsFile Sample.running)
              Sample.running Sample.settings_no_manifest)
    as (_ & _ & Hr & Hp & _); [reflexivity .. |].
  split; [exact Hr | exact Hp].
Defined.

(** C9 fails as worded.  With the settings of the file already applied,
    a reload changes no size and the listener is notified all the same;
    and when the manifest cascade fails after the notification, the
    reload fails and the listener has been notified. *)
Lemma OnAssetReload_OnChange_counterexample :
  (let r := OnAssetReload Sample.reload_unchanged (Sample.disk_good 20)
              (mSettingsFile Sample.settled) Sample.settled in
   r.1 = true ∧
   mSettings r.2 = mSettings Sample.settled ∧
   OnChange_calls (calls_since Sample.settled r.2) = [(7%nat, 800, 480)] ∧
   ¬ notified_once_per_size_change Sample.settled r) ∧
  (let r := OnAssetReload Sample.reload_fails (Sample.disk_small_window 20)
              (mSettingsFile Sample.running) Sample.running in
   r.1 = false ∧
   OnChange_calls (calls_since Sample.running r.2) = [(7%nat, 800, 480)] ∧
   ¬ notified_once_per_size_change Sample.running r).
Proof.
  split.
  - cbv zeta. split; [reflexivity |]. split; [reflexivity |].
    split; [reflexivity |]. unfold notified_once_per_size_change.
    vm_compute. discriminate.
  - cbv zeta. split; [reflexivity |]. split; [reflexivity |].
    unfold notified_once_per_size_change. vm_compute. discriminate.
Qed.

(** ** Properties of [ForceReload] *)

Section ForceReload_properties.

Variable Reload :
  gmap string File → option string → ManifestAssetStore → Game →
  bool * ManifestAssetStore * Game.

(** A settings reload that succeeds has found the settings file. *)
Lemma OnAssetReload_true_exists fs asset d :
  (OnAssetReload Reload fs asset d).1 = true →
  DDFile.FileExists fs (Path asset) = true.
Proof.
  destruct (DDFile.FileExists fs (Path asset)) eqn:He; [reflexivity |].
  rewrite (OnAssetReload_settings_missing _ _ _ _ He). discriminate.
Qed.

(** The settings reload never touches the settings asset, and makes
    no call that stores a timestamp or resets the game. *)
Lemma OnAssetReload_frame fs asset d :
  mSettingsFile (OnAssetReload Reload fs asset d).2 = mSettingsFile d ∧
  ∃ cs, calls (OnAssetReload Reload fs asset d).2 = calls d ++ cs ∧
        SetTimeLastModified_calls cs = [] ∧ Reset_calls cs = 0%nat.
Proof.
  destruct (DDFile.FileExists fs (Path asset)) eqn:He.
  2: { rewrite (OnAssetReload_settings_missing _ _ _ _ He).
       split; [reflexivity |]. exists [Call_Clear; Call_Break].
       cbn [snd]. rewrite calls_mGame_Break, calls_mManifestAssetStore_Clear, <- app_assoc. auto. }
  destruct (DoFile fs (Path asset)) as [luaState |] eqn:Hd.
  2: { rewrite (OnAssetReload_unparsable _ _ _ _ He Hd).
       split; [reflexivity |]. exists [Call_Break]. auto. }
  pose proof (ReadInSettingsFile_parsed fs (Path asset) d luaState Hd) as Hr.
  destruct (DDFile.FileExists fs (LuaState.GetString luaState "manifest" "")) eqn:Hm.
  - split.
    + rewrite (OnAssetReload_manifest_present _ _ _ _ _ Hd Hm).
      rewrite Hr. cbn [snd].
      match goal with
      | |- context [StoreReload Reload fs ?p ?x] =>
          pose proof (mSettingsFile_StoreReload Reload fs p x) as Hs;
          destruct (StoreReload Reload fs p x) as [[] d4]
      end; cbn [fst snd] in *; cbn [mGame_Break mSettingsFile record set_mGame];
        rewrite Hs; destruct (mScreenChangeListener _); reflexivity.
    + destruct (OnAssetReload_manifest_present_calls Reload _ _ d _ Hd Hm)
        as (w & h & Hcs).
      eexists. split; [exact Hcs |].
      unfold SetTimeLastModified_calls, Reset_calls. rewrite !omap_app.
      destruct (mScreenChangeListener d), (OnAssetReload Reload fs asset d).1;
        auto.
  - rewrite (OnAssetReload_manifest_missing _ _ _ _ _ Hd Hm), Hr.
    split; [reflexivity |]. exists [Call_Clear; Call_Break].
    cbn [snd]. rewrite calls_mGame_Break, calls_mManifestAssetStore_Clear, <- app_assoc. auto.
Qed.

(** [ForceReload] returns the outcome of its cascade. *)
Lemma ForceReload_result fs d :
  (ForceReload Reload fs d).1 = (ForceReload_cascade Reload fs d).1.
Proof.
  unfold ForceReload. destruct (ForceReload_cascade Reload fs d) as [[] d1];
    unfold ForceReload_react; cbn [negb fst].
  - repeat case_match; reflexivity.
  - reflexivity.
Qed.

(** The reaction to the outcome leaves the settings asset alone and
    stores no timestamp. *)
Lemma ForceReload_react_frame ok d :
  mSettingsFile (ForceReload_react ok d).2 = mSettingsFile d ∧
  ∃ cs, calls (ForceReload_react ok d).2 = calls d ++ cs ∧
        SetTimeLastModified_calls cs = [].
Proof.
  unfold ForceReload_react. destruct ok; cbn [negb].
  - repeat case_match; cbn [snd]; (split; [reflexivity |]);
      first [ exists [Call_Reset]; split; reflexivity
            | exists []; rewrite app_nil_r; split; reflexivity ].
  - split; [reflexivity |]. exists [Call_Break]. split; reflexivity.
Qed.

(** C2, as the code has it: after a successful cascade, [ForceReload]
    performs the full application reset exactly when the reload count
    is positive, or the game is not running, or the game is not ready;
    when the game is running and ready and nothing was reloaded, no
    reset is made and the state is the one the cascade left. *)
Theorem ForceReload_reset_condition fs d d1 :
  ForceReload_cascade Reload fs d = (true, d1) →
  ForceReload Reload fs d =
    (true,
     if (Game_.GetReloadCount (mGame d1) >? 0)
        || negb (Game_.IsRunning (mGame d1))
        || negb (Game_.IsReady (mGame d1))
     then mGame_Reset d1 else d1) ∧
  Reset_calls (calls_since d1 (ForceReload Reload fs d).2) =
    (if (Game_.GetReloadCount (mGame d1) >? 0)
        || negb (Game_.IsRunning (mGame d1))
        || negb (Game_.IsReady (mGame d1))
     then 1%nat else 0%nat).
Proof.
  intros Hc. unfold ForceReload. rewrite Hc. unfold ForceReload_react.
  cbn [negb].
  destruct (Game_.GetReloadCount (mGame d1) >? 0),
    (Game_.IsRunning (mGame d1)), (Game_.IsReady (mGame d1));
    cbn [negb orb fst snd]; (split; [reflexivity |]);
    first [ rewrite (calls_since_app d1 (mGame_Reset d1) [Call_Reset]) by reflexivity;
            reflexivity
          | rewrite (calls_since_app d1 d1 []) by (symmetry; apply app_nil_r);
            reflexivity ].
Qed.

(** The pass in which the settings file is out of date and its reload
    fails: the game is broken once more and nothing else happens. *)
Lemma ForceReload_failed_reload fs d :
  AssetStore.IsOutOfDate fs (mSettingsFile d) = true →
  (Asset_OnReload Reload fs (mSettingsFile d)
     (set_mGame (Game_.ResetReloadCount (mGame d)) d)).1 = false →
  ForceReload Reload fs d =
    (false, mGame_Break (OnAssetReload Reload fs (mSettingsFile d)
                     (set_mGame (Game_.ResetReloadCount (mGame d)) d)).2).
Proof.
  intros Hstale Hfail. unfold ForceReload, ForceReload_cascade.
  cbn [mSettingsFile set_mGame]. rewrite Hstale. unfold Asset_OnReload in *.
  destruct (OnAssetReload Reload fs (mSettingsFile d) _) as [ok d1].
  cbn [fst snd] in *. subst ok. reflexivity.
Qed.

(** C4: the timestamp of the settings asset is stored only by a
    settings reload that succeeds.  When the settings file is out of
    date and its reload fails, [ForceReload] fails, makes no
    [SetTimeLastModified] call and leaves the asset, timestamp
    included, as it was, so that the file is out of date again at the
    next check of the same disk. *)
Theorem ForceReload_failed_reload_keeps_timestamp fs d :
  AssetStore.IsOutOfDate fs (mSettingsFile d) = true →
  (Asset_OnReload Reload fs (mSettingsFile d)
     (set_mGame (Game_.ResetReloadCount (mGame d)) d)).1 = false →
  (ForceReload Reload fs d).1 = false ∧
  SetTimeLastModified_calls (calls_since d (ForceReload Reload fs d).2) = [] ∧
  mSettingsFile (ForceReload Reload fs d).2 = mSettingsFile d ∧
  LastModified (mSettingsFile (ForceReload Reload fs d).2)
    = LastModified (mSettingsFile d) ∧
  AssetStore.IsOutOfDate fs (mSettingsFile (ForceReload Reload fs d).2) = true.
Proof.
  intros Hstale Hfail.
  rewrite (ForceReload_failed_reload fs d Hstale Hfail). cbn [fst snd].
  destruct (OnAssetReload_frame fs (mSettingsFile d)
              (set_mGame (Game_.ResetReloadCount (mGame d)) d))
    as (Hfile & cs & Hcs & Hnone & _).
  cbn [mSettingsFile calls set_mGame] in Hfile, Hcs.
  assert (Hsame : mSettingsFile
                    (mGame_Break (OnAssetReload Reload fs (mSettingsFile d)
                              (set_mGame (Game_.ResetReloadCount (mGame d)) d)).2)
                  = mSettingsFile d) by exact Hfile.
  split; [reflexivity |]. split.
  - rewrite (calls_since_app d _ (cs ++ [Call_Break])).
    + unfold SetTimeLastModified_calls in *. rewrite omap_app, Hnone. reflexivity.
    + rewrite calls_mGame_Break, Hcs, <- app_assoc. reflexivity.
  - rewrite Hsame. auto.
Qed.

End ForceReload_properties.

(** When the settings reload succeeds, the timestamp read from disk is
    there to be stored: the cascade never has to do without it. *)
Lemma ForceReload_cascade_stores_timestamp Reload fs d :
  AssetStore.IsOutOfDate fs (mSettingsFile d) = true →
  (ForceReload_cascade Reload fs d).1 = true →
  ∃ t, AssetStore.GetModifiedTimeStamp fs (mSettingsFile d) = Some t ∧
       LastModified (mSettingsFile (ForceReload_cascade Reload fs d).2) = Some t.
Proof.
  intros Hstale. unfold ForceReload_cascade. cbn [mSettingsFile set_mGame].
  rewrite Hstale. unfold Asset_OnReload.
  pose proof (OnAssetReload_true_exists Reload fs (mSettingsFile d)
                (set_mGame (Game_.ResetReloadCount (mGame d)) d)) as Hex.
  destruct (OnAssetReload_frame Reload fs (mSettingsFile d)
              (set_mGame (Game_.ResetReloadCount (mGame d)) d)) as (Hfile & _).
  destruct (OnAssetReload Reload fs (mSettingsFile d) _) as [[] d1];
    cbn [fst snd] in *; [| discriminate].
  intros _. specialize (Hex eq_refl). apply FileExists_true in Hex as [f Hf].
  cbn [mSettingsFile set_mGame] in Hfile. rewrite Hfile.
  unfold AssetStore.GetModifiedTimeStamp. rewrite Hf. cbn.
  exists (mtime f). auto.
Qed.

(** [ForceReload] changes the settings asset only in a pass that found
    the settings file out of date and succeeded. *)
Lemma ForceReload_timestamp_only_on_success Reload fs d :
  mSettingsFile (ForceReload Reload fs d).2 ≠ mSettingsFile d →
  AssetStore.IsOutOfDate fs (mSettingsFile d) = true ∧
  (ForceReload Reload fs d).1 = true.
Proof.
  intros Hne.
  destruct (AssetStore.IsOutOfDate fs (mSettingsFile d)) eqn:Hstale.
  - split; [reflexivity |].
    destruct (ForceReload Reload fs d).1 eqn:Hr; [reflexivity |].
    exfalso. apply Hne.
    rewrite ForceReload_result in Hr.
    assert (Hf : (Asset_OnReload Reload fs (mSettingsFile d)
                    (set_mGame (Game_.ResetReloadCount (mGame d)) d)).1 = false).
    { revert Hr. unfold ForceReload_cascade. cbn [mSettingsFile set_mGame].
      rewrite Hstale.
      destruct (Asset_OnReload Reload fs (mSettingsFile d) _) as [[] d1];
        [| reflexivity].
      destruct (AssetStore.GetModifiedTimeStamp fs (mSettingsFile d1)); discriminate. }
    rewrite (ForceReload_failed_reload Reload fs d Hstale Hf). cbn [snd].
    destruct (OnAssetReload_frame Reload fs (mSettingsFile d)
                (set_mGame (Game_.ResetReloadCount (mGame d)) d)) as (Hfile & _).
    exact Hfile.
  - exfalso. apply Hne. unfold ForceReload.
    destruct (ForceReload_cascade Reload fs d) as [ok d1] eqn:Hc.
    destruct (ForceReload_react_frame ok d1) as (-> & _).
    revert Hc. unfold ForceReload_cascade. cbn [mSettingsFile set_mGame].
    rewrite Hstale. intros Hc.
    pose proof (mSettingsFile_StoreReload Reload fs None
                  (set_mGame (Game_.ResetReloadCount (mGame d)) d)) as Hs.
    rewrite Hc in Hs. exact Hs.
Qed.

(** The first successful pass resets the game; a later successful pass
    over a running, ready game with nothing reloaded does not. *)
Lemma ForceReload_reset_condition_witness :
  Reset_calls
    (calls_since
       (ForceReload_cascade Sample.reload_unchanged (Sample.disk_good 10)
          (Dinodeck_new "dinodeck")).2
       (ForceReload Sample.reload_unchanged (Sample.disk_good 10)
          (Dinodeck_new "dinodeck")).2) = 1%nat ∧
  Reset_calls
    (calls_since
       (ForceReload_cascade Sample.reload_unchanged (Sample.disk_good 20)
          Sample.running).2
       (ForceReload Sample.reload_unchanged (Sample.disk_good 20)
          Sample.running).2) = 0%nat.
Proof.
  split.
  - destruct (ForceReload_reset_condition Sample.reload_unchanged
                (Sample.disk_good 10) (Dinodeck_new "dinodeck")
                (ForceReload_cascade Sample.reload_unchanged (Sample.disk_good 10)
                   (Dinodeck_new "dinodeck")).2) as [_ H];
      [vm_compute; reflexivity | exact H].
  - destruct (ForceReload_reset_condition Sample.reload_unchanged
                (Sample.disk_good 20) Sample.running
                (ForceReload_cascade Sample.reload_unchanged (Sample.disk_good 20)
                   Sample.running).2) as [_ H];
      [vm_compute; reflexivity | exact H].
Defined.

(** C2 fails as worded.  The game is started by a first successful
    pass, broken by a pass over an unparsable settings file, and then the
    file is repaired: the third pass succeeds with the game ready and the
    reload count at zero, and the game is reset all the same, because it
    is not running. *)
Lemma ForceReload_reset_counterexample :
  let d1 := (ForceReload Sample.reload_unchanged (Sample.disk_good 10)
               (Dinodeck_new "dinodeck")).2 in
  let d2 := (ForceReload Sample.reload_unchanged (Sample.disk_unparsable 20) d1).2 in
  let c := ForceReload_cascade Sample.reload_unchanged (Sample.disk_good 30) d2 in
  let r := ForceReload Sample.reload_unchanged (Sample.disk_good 30) d2 in
  c.1 = true ∧ r.1 = true ∧
  isReady (mGame d2) = true ∧
  isReady (mGame c.2) = true ∧
  reloadCount (mGame c.2) = 0 ∧
  runState (mGame c.2) = Broken ∧
  Reset_calls (calls_since c.2 r.2) = 1%nat ∧
  ¬ (Reset_calls (calls_since c.2 r.2) = 1%nat ↔
     isReady (mGame c.2) = false ∨ reloadCount (mGame c.2) > 0).
Proof.
  cbv zeta. repeat (split; [vm_compute; reflexivity |]).
  intros [H _].
  destruct H as [Hready | Hcount]; [vm_compute; reflexivity | |].
  - vm_compute in Hready. discriminate.
  - vm_compute in Hcount. discriminate.
Qed.

(** A pass over an unparsable settings file saved after the last load:
    the stored timestamp stays at 10 and the file is still out of date. *)
Lemma ForceReload_failed_reload_keeps_timestamp_witness :
  LastModified (mSettingsFile Sample.running) = Some 10 ∧
  (ForceReload Sample.reload_unchanged (Sample.disk_unparsable 20) Sample.running).1
    = false ∧
  LastModified (mSettingsFile
     (ForceReload Sample.reload_unchanged (Sample.disk_unparsable 20) Sample.running).2)
    = LastModified (mSettingsFile Sample.running) ∧
  AssetStore.IsOutOfDate (Sample.disk_unparsable 20)
    (mSettingsFile
       (ForceReload Sample.reload_unchanged (Sample.disk_unparsable 20)
          Sample.running).2) = true.
Proof.
  split; [reflexivity |].
  destruct (ForceReload_failed_reload_keeps_timestamp Sample.reload_unchanged
              (Sample.disk_unparsable 20) Sample.running)
    as (Hr & _ & _ & Ht & Hs);
    [vm_compute; reflexivity | vm_compute; reflexivity |].
  split; [exact Hr |]. split; [exact Ht | exact Hs].
Defined.

(** ** The constructor *)

(** C10: the constructor leaves exactly five asset categories
    registered: [scripts] with the game as owner and no optional flag,
    [textures] with the texture manager, [fonts] with the manifest asset
    store itself, and [sounds] and [soundstreams] both with the one audio
    object, these four as optional; so [scripts] is the only registered
    category that is not optional. *)
Theorem Dinodeck_new_owners n :
  owners (mManifestAssetStore (Dinodeck_new n)) =
    {[ "scripts" := (OwnerGame, Required);
       "textures" := (OwnerTextureManager, Optional);
       "fonts" := (OwnerManifestAssetStore, Optional);
       "sounds" := (OwnerDDAudio, Optional);
       "soundstreams" := (OwnerDDAudio, Optional) ]} ∧
  size (owners (mManifestAssetStore (Dinodeck_new n))) = 5%nat ∧
  ∀ (category : string) (owner : AssetOwner) (flag : OwnerFlag),
    owners (mManifestAssetStore (Dinodeck_new n)) !! category = Some (owner, flag) →
    (flag = Required ↔ category = "scripts").
Proof.
  assert (Heq : owners (mManifestAssetStore (Dinodeck_new n)) =
    {[ "scripts" := (OwnerGame, Required);
       "textures" := (OwnerTextureManager, Optional);
       "fonts" := (OwnerManifestAssetStore, Optional);
       "sounds" := (OwnerDDAudio, Optional);
       "soundstreams" := (OwnerDDAudio, Optional) ]})
    by (vm_compute; reflexivity).
  split; [exact Heq | split].
  - vm_compute; reflexivity.
  - rewrite Heq. intros category owner flag H.
    repeat (apply lookup_insert_Some in H as [[<- H] | [? H]];
            [injection H as <- <-; split;
               [discriminate || reflexivity | discriminate || reflexivity] |]).
    apply lookup_singleton_Some in H as [<- H].
    injection H as <- <-. split; discriminate.
Qed.

(** ** Further properties of the settings reader *)

Lemma ClampDisplay_name s : name (ClampDisplay s) = name s.
Proof. unfold ClampDisplay. repeat case_match; reflexivity. Qed.

Lemma ClampDisplay_mainScript s : mainScript (ClampDisplay s) = mainScript s.
Proof. unfold ClampDisplay. repeat case_match; reflexivity. Qed.

Lemma ClampDisplay_onUpdate s : onUpdate (ClampDisplay s) = onUpdate s.
Proof. unfold ClampDisplay. repeat case_match; reflexivity. Qed.

Lemma ClampDisplay_webserver s : webserver (ClampDisplay s) = webserver s.
Proof. unfold ClampDisplay. repeat case_match; reflexivity. Qed.

Lemma ClampDisplay_orientation s : orientation (ClampDisplay s) = orientation s.
Proof. unfold ClampDisplay. repeat case_match; reflexivity. Qed.

(** The settings of the state a successful read leaves. *)
Lemma ReadInSettingsFile_parsed_mSettings fs path d luaState :
  DoFile fs path = Some luaState →
  mSettings (ReadInSettingsFile fs path d).2
    = ClampDisplay (ReadSettings luaState (mSettings d)).
Proof. intros Hd. rewrite (ReadInSettingsFile_parsed _ _ _ _ Hd). reflexivity. Qed.

(** X1: whatever the outcome, [ReadInSettingsFile] leaves the game, the
    settings asset, the listener and the owner registry alone; a failed
    read, of either kind, leaves the settings and the name alone; and
    the store and the call trace change only when the file is missing. *)
Theorem ReadInSettingsFile_frame fs path d :
  mGame (ReadInSettingsFile fs path d).2 = mGame d ∧
  mSettingsFile (ReadInSettingsFile fs path d).2 = mSettingsFile d ∧
  mScreenChangeListener (ReadInSettingsFile fs path d).2 = mScreenChangeListener d ∧
  owners (mManifestAssetStore (ReadInSettingsFile fs path d).2)
    = owners (mManifestAssetStore d) ∧
  ((ReadInSettingsFile fs path d).1 = false →
   mSettings (ReadInSettingsFile fs path d).2 = mSettings d ∧
   mName (ReadInSettingsFile fs path d).2 = mName d) ∧
  (DDFile.FileExists fs path = true →
   mManifestAssetStore (ReadInSettingsFile fs path d).2 = mManifestAssetStore d ∧
   calls (ReadInSettingsFile fs path d).2 = calls d) ∧
  (DDFile.FileExists fs path = false →
   assets (mManifestAssetStore (ReadInSettingsFile fs path d).2) = [] ∧
   calls_since d (ReadInSettingsFile fs path d).2 = [Call_Clear]).
Proof.
  unfold ReadInSettingsFile.
  destruct (DDFile.FileExists fs path); cbn [negb].
  - destruct (DoFile fs path) as [luaState |]; cbn [fst snd];
      repeat split; intros; first [reflexivity | discriminate].
  - cbn [fst snd]. repeat split; intros; try first [reflexivity | discriminate].
    apply calls_since_app. reflexivity.
Qed.

(** X2: the keys [name], [width] and [height] default to the values
    already held: a document that leaves one of them out is read
    successfully and keeps the previous value of that field. *)
Theorem ReadInSettingsFile_keeps_unnamed fs path d luaState :
  DoFile fs path = Some luaState →
  (ReadInSettingsFile fs path d).1 = true ∧
  (luaState !! "name" = None →
   name (mSettings (ReadInSettingsFile fs path d).2) = name (mSettings d)) ∧
  (luaState !! "width" = None →
   width (mSettings (ReadInSettingsFile fs path d).2) = width (mSettings d)) ∧
  (luaState !! "height" = None →
   height (mSettings (ReadInSettingsFile fs path d).2) = height (mSettings d)).
Proof.
  intros Hd. rewrite (ReadInSettingsFile_parsed_mSettings _ _ _ _ Hd).
  rewrite (ReadInSettingsFile_parsed _ _ _ _ Hd).
  rewrite ClampDisplay_name, ClampDisplay_width, ClampDisplay_height.
  unfold ReadSettings, LuaState.GetString, LuaState.GetInt. cbn [fst name width height].
  repeat split; intros ->; reflexivity.
Qed.

Lemma ReadInSettingsFile_keeps_unnamed_witness :
  name (mSettings (ReadInSettingsFile (Sample.disk_manifest_only 20) "settings.lua"
                     Sample.customised).2) = "Custom" ∧
  width (mSettings (ReadInSettingsFile (Sample.disk_manifest_only 20) "settings.lua"
                      Sample.customised).2) = 320 ∧
  height (mSettings (ReadInSettingsFile (Sample.disk_manifest_only 20) "settings.lua"
                       Sample.customised).2) = 200.
Proof.
  destruct (ReadInSettingsFile_keeps_unnamed (Sample.disk_manifest_only 20)
              "settings.lua" Sample.customised Sample.settings_manifest_only)
    as (_ & Hn & Hw & Hh); [vm_compute; reflexivity |].
  split; [exact (Hn eq_refl) |]. split; [exact (Hw eq_refl) | exact (Hh eq_refl)].
Defined.

(** X3: the other keys do not default to what is held.  A document
    that leaves out [main_script], [on_update], [webserver] or
    [orientation] puts that field back to ["main.lua"], ["update()"],
    [false] or ["portrait"], and one that leaves out [display_width] or
    [display_height] makes the window as wide or as high as the surface,
    whatever the field held before. *)
Theorem ReadInSettingsFile_resets_unnamed fs path d luaState :
  DoFile fs path = Some luaState →
  (luaState !! "main_script" = None →
   mainScript (mSettings (ReadInSettingsFile fs path d).2) = "main.lua") ∧
  (luaState !! "on_update" = None →
   onUpdate (mSettings (ReadInSettingsFile fs path d).2) = "update()") ∧
  (luaState !! "webserver" = None →
   webserver (mSettings (ReadInSettingsFile fs path d).2) = false) ∧
  (luaState !! "orientation" = None →
   orientation (mSettings (ReadInSettingsFile fs path d).2) = "portrait") ∧
  (luaState !! "display_width" = None →
   displayWidth (mSettings (ReadInSettingsFile fs path d).2)
     = width (mSettings (ReadInSettingsFile fs path d).2)) ∧
  (luaState !! "display_height" = None →
   displayHeight (mSettings (ReadInSettingsFile fs path d).2)
     = height (mSettings (ReadInSettingsFile fs path d).2)).
Proof.
  intros Hd. rewrite (ReadInSettingsFile_parsed_mSettings _ _ _ _ Hd).
  rewrite ClampDisplay_mainScript, ClampDisplay_onUpdate, ClampDisplay_webserver,
    ClampDisplay_orientation, ClampDisplay_displayWidth, ClampDisplay_displayHeight,
    ClampDisplay_width, ClampDisplay_height.
  unfold ReadSettings, LuaState.GetString, LuaState.GetBoolean.
  cbn [mainScript onUpdate webserver orientation displayWidth displayHeight
       width height].
  repeat split; intros H.
  1-4: rewrite H; reflexivity.
  - unfold LuaState.GetInt at 1. rewrite H. lia.
  - unfold LuaState.GetInt at 1. rewrite H. lia.
Qed.

Lemma ReadInSettingsFile_resets_unnamed_witness :
  mainScript (mSettings Sample.customised) = "boot.lua" ∧
  webserver (mSettings Sample.customised) = true ∧
  displayWidth (mSettings Sample.customised) = 1024 ∧
  mainScript (mSettings (ReadInSettingsFile (Sample.disk_manifest_only 20)
                           "settings.lua" Sample.customised).2) = "main.lua" ∧
  webserver (mSettings (ReadInSettingsFile (Sample.disk_manifest_only 20)
                          "settings.lua" Sample.customised).2) = false ∧
  displayWidth (mSettings (ReadInSettingsFile (Sample.disk_manifest_only 20)
                             "settings.lua" Sample.customised).2)
    = width (mSettings (ReadInSettingsFile (Sample.disk_manifest_only 20)
                          "settings.lua" Sample.customised).2).
Proof.
  do 3 (split; [reflexivity |]).
  destruct (ReadInSettingsFile_resets_unnamed (Sample.disk_manifest_only 20)
              "settings.lua" Sample.customised Sample.settings_manifest_only)
    as (Hm & _ & Hw & _ & Hd & _); [vm_compute; reflexivity |].
  split; [exact (Hm eq_refl) |]. split; [exact (Hw eq_refl) | exact (Hd eq_refl)].
Defined.

Lemma GetString_default_absorbs (luaState : gmap string LuaValue) key def :
  LuaState.GetString luaState key (LuaState.GetString luaState key def)
    = LuaState.GetString luaState key def.
Proof. unfold LuaState.GetString. repeat case_match; reflexivity. Qed.

Lemma GetInt_default_absorbs (luaState : gmap string LuaValue) key def :
  LuaState.GetInt luaState key (LuaState.GetInt luaState key def)
    = LuaState.GetInt luaState key def.
Proof. unfold LuaState.GetInt. repeat case_match; reflexivity. Qed.

(** Reading a document over the settings it has produced changes
    nothing: the only fields the reader takes from the previous settings
    are the three it has just written. *)
Lemma ReadSettings_absorbs luaState s :
  ReadSettings luaState (ClampDisplay (ReadSettings luaState s))
    = ReadSettings luaState s.
Proof.
  unfold ReadSettings at 1. cbv zeta.
  rewrite ClampDisplay_name, ClampDisplay_width, ClampDisplay_height.
  unfold ReadSettings. cbn [name width height].
  rewrite GetString_default_absorbs, !GetInt_default_absorbs. reflexivity.
Qed.

(** X4: reading the settings file is idempotent while the file is on
    disk: a second [ReadInSettingsFile] of the same file returns the same
    outcome and leaves the state the first one left.  (When the file is
    missing the store is cleared once per call.) *)
Theorem ReadInSettingsFile_idempotent fs path d :
  DDFile.FileExists fs path = true →
  ReadInSettingsFile fs path (ReadInSettingsFile fs path d).2
    = ReadInSettingsFile fs path d.
Proof.
  intros He. destruct (DoFile fs path) as [luaState |] eqn:Hd.
  - rewrite !(ReadInSettingsFile_parsed _ _ _ _ Hd).
    cbn [snd SetName set_mName set_mSettings mSettings].
    rewrite ReadSettings_absorbs. reflexivity.
  - unfold ReadInSettingsFile. rewrite He, Hd. cbn [negb snd].
    rewrite ?He, ?Hd. reflexivity.
Qed.

Lemma ReadInSettingsFile_idempotent_witness :
  ReadInSettingsFile (Sample.disk_small_window 20) "settings.lua"
    (ReadInSettingsFile (Sample.disk_small_window 20) "settings.lua"
       Sample.customised).2
  = ReadInSettingsFile (Sample.disk_small_window 20) "settings.lua" Sample.customised.
Proof.
  apply (ReadInSettingsFile_idempotent (Sample.disk_small_window 20) "settings.lua"
           Sample.customised).
  vm_compute; reflexivity.
Defined.

(** X5: the clamp changes the settings exactly when the window fails to
    cover the surface: [ClampDisplay s = s] if and only if
    [width <= displayWidth] and [height <= displayHeight]. *)
Theorem ClampDisplay_fixed_iff s :
  ClampDisplay s = s ↔ display_covers_surface s.
Proof.
  unfold display_covers_surface. split.
  - intros H.
    pose proof (ClampDisplay_displayWidth s) as Hw.
    pose proof (ClampDisplay_displayHeight s) as Hh.
    rewrite H in Hw, Hh. lia.
  - intros [Hw Hh]. apply ClampDisplay_fixed; assumption.
Qed.

(** ** Properties of [ResetRenderWindow] *)

Lemma CInt_of_unsigned_cases u :
  0 <= u < 2 ^ 32 →
  CInt.of_unsigned u = if u <? 2 ^ 31 then u else u - 2 ^ 32.
Proof.
  intros Hu. unfold CInt.of_unsigned, CInt.of_Z, CInt.modulus, CInt.half_modulus.
  destruct (Z.ltb_spec u (2 ^ 31)).
  - rewrite Z.mod_small by lia. lia.
  - replace (u + 2 ^ 31) with ((u - 2 ^ 31) + 1 * 2 ^ 32) by lia.
    rewrite Z_mod_plus_full, Z.mod_small by lia. lia.
Qed.

(** X6: [ResetRenderWindow(width, height)] stores its two [unsigned
    int] arguments in the [int] fields [width] and [height]: a value
    below 2^31 is stored as it is, a larger one wraps to the negative
    [value - 2^32].  Every other settings field and every other member is
    left alone, and the frame buffer is reset once, to the stored size. *)
Theorem ResetRenderWindow_sets_surface w h d :
  0 <= w < 2 ^ 32 →
  0 <= h < 2 ^ 32 →
  mSettings (ResetRenderWindow w h d)
    = set_size (if w <? 2 ^ 31 then w else w - 2 ^ 32)
               (if h <? 2 ^ 31 then h else h - 2 ^ 32) (mSettings d) ∧
  calls_since d (ResetRenderWindow w h d)
    = [Call_FrameBufferReset (if w <? 2 ^ 31 then w else w - 2 ^ 32)
                             (if h <? 2 ^ 31 then h else h - 2 ^ 32)] ∧
  mName (ResetRenderWindow w h d) = mName d ∧
  mGame (ResetRenderWindow w h d) = mGame d ∧
  mManifestAssetStore (ResetRenderWindow w h d) = mManifestAssetStore d ∧
  mSettingsFile (ResetRenderWindow w h d) = mSettingsFile d ∧
  mScreenChangeListener (ResetRenderWindow w h d) = mScreenChangeListener d.
Proof.
  intros Hw Hh. unfold ResetRenderWindow, ViewWidth, ViewHeight.
  cbn [mSettings set_mSettings record set_size width height mName mGame
       mManifestAssetStore mSettingsFile mScreenChangeListener].
  rewrite (CInt_of_unsigned_cases w Hw), (CInt_of_unsigned_cases h Hh).
  repeat split. apply calls_since_app. reflexivity.
Qed.

Lemma ResetRenderWindow_sets_surface_witness :
  width (mSettings (ResetRenderWindow 800 4294967295 Sample.running)) = 800 ∧
  height (mSettings (ResetRenderWindow 800 4294967295 Sample.running)) = -1 ∧
  displayWidth (mSettings (ResetRenderWindow 800 4294967295 Sample.running)) = 1024.
Proof.
  destruct (ResetRenderWindow_sets_surface 800 4294967295 Sample.running)
    as (Hs & _); [lia | lia |].
  rewrite Hs. repeat split.
Defined.

(** X7: [ResetRenderWindow] does not clamp.  Given a width greater
    than the window width held in the settings, it leaves a surface that
    the window no longer covers. *)
Theorem ResetRenderWindow_does_not_clamp w h d :
  0 <= w →
  displayWidth (mSettings d) < w < 2 ^ 31 →
  ¬ display_covers_surface (mSettings (ResetRenderWindow w h d)) ∧
  displayWidth (mSettings (ResetRenderWindow w h d)) = displayWidth (mSettings d) ∧
  width (mSettings (ResetRenderWindow w h d)) = w.
Proof.
  intros H0 Hw. unfold ResetRenderWindow, display_covers_surface.
  cbn [mSettings set_mSettings record set_size width height displayWidth].
  assert (Hin : CInt.in_range w)
    by (unfold CInt.in_range, CInt.half_modulus; lia).
  unfold CInt.of_unsigned. rewrite (CInt_of_Z_id w Hin).
  repeat split; try reflexivity. lia.
Qed.

Lemma ResetRenderWindow_does_not_clamp_witness :
  display_covers_surface (mSettings Sample.settled) ∧
  ¬ display_covers_surface (mSettings (ResetRenderWindow 1280 720 Sample.settled)).
Proof.
  split; [unfold display_covers_surface; cbn; lia |].
  apply (ResetRenderWindow_does_not_clamp 1280 720 Sample.settled); simpl; lia.
Defined.

(** ** Further properties of the settings reload *)

Section OnAssetReload_outcomes.

Variable Reload :
  gmap string File → option string → ManifestAssetStore → Game →
  bool * ManifestAssetStore * Game.

(** Every member after a reload that reaches the manifest cascade. *)
Lemma OnAssetReload_manifest_present_state fs asset d luaState :
  DoFile fs (Path asset) = Some luaState →
  DDFile.FileExists fs (LuaState.GetString luaState "manifest" "") = true →
  let C := ClampDisplay (ReadSettings luaState (mSettings d)) in
  let out := Reload fs (Some (LuaState.GetString luaState "manifest" ""))
               (mManifestAssetStore d) (mGame d) in
  (OnAssetReload Reload fs asset d).1 = out.1.1 ∧
  mSettings (OnAssetReload Reload fs asset d).2
    = set_size (CInt.of_unsigned (CInt.to_unsigned (width C)))
               (CInt.of_unsigned (CInt.to_unsigned (height C))) C ∧
  mName (OnAssetReload Reload fs asset d).2 = name C ∧
  mManifestAssetStore (OnAssetReload Reload fs asset d).2 = out.1.2 ∧
  mGame (OnAssetReload Reload fs asset d).2
    = (if out.1.1 then out.2 else Game_.Break out.2) ∧
  mSettingsFile (OnAssetReload Reload fs asset d).2 = mSettingsFile d ∧
  mScreenChangeListener (OnAssetReload Reload fs asset d).2 = mScreenChangeListener d.
Proof.
  intros Hd Hm C out. subst out.
  rewrite (OnAssetReload_manifest_present Reload _ _ _ _ Hd Hm).
  rewrite (ReadInSettingsFile_parsed _ _ _ _ Hd). fold C. cbn [snd].
  unfold StoreReload, ResetRenderWindow.
  destruct (mScreenChangeListener (SetName (name C) (set_mSettings C d))) eqn:Hl;
    cbn [mSettings mGame mManifestAssetStore record set_mSettings SetName set_mName
         manifestPath set_size];
    (replace (manifestPath C) with (LuaState.GetString luaState "manifest" "")
       by (subst C; rewrite ClampDisplay_manifestPath; reflexivity));
    destruct (Reload fs _ (mManifestAssetStore d) (mGame d)) as [[[] st] g];
    cbn; repeat split; reflexivity.
Qed.

(** X8: [OnAssetReload] returns true exactly when the settings file
    parses, the manifest path it names is on disk, and the manifest
    cascade, run on that path with the store and the game as they were,
    succeeds. *)
Theorem OnAssetReload_true_iff fs asset d :
  (OnAssetReload Reload fs asset d).1 = true ↔
  ∃ luaState,
    DoFile fs (Path asset) = Some luaState ∧
    DDFile.FileExists fs (LuaState.GetString luaState "manifest" "") = true ∧
    (Reload fs (Some (LuaState.GetString luaState "manifest" ""))
       (mManifestAssetStore d) (mGame d)).1.1 = true.
Proof.
  destruct (DoFile fs (Path asset)) as [luaState |] eqn:Hd.
  - destruct (DDFile.FileExists fs (LuaState.GetString luaState "manifest" ""))
      eqn:Hm.
    + destruct (OnAssetReload_manifest_present_state _ _ d _ Hd Hm) as (-> & _).
      split.
      * intros H. exists luaState. auto.
      * intros (l & [= <-] & _ & H). exact H.
    + rewrite (OnAssetReload_manifest_missing Reload _ _ _ _ Hd Hm). split.
      * discriminate.
      * intros (l & [= <-] & H & _). congruence.
  - split.
    + destruct (DDFile.FileExists fs (Path asset)) eqn:He.
      * rewrite (OnAssetReload_unparsable Reload _ _ _ He Hd). discriminate.
      * rewrite (OnAssetReload_settings_missing Reload _ _ _ He). discriminate.
    + intros (l & [=] & _).
Qed.

(** The calls of a reload, case by case. *)
Lemma OnAssetReload_calls_cases fs asset d :
  (∃ cs, calls_since d (OnAssetReload Reload fs asset d).2 = cs ++ [Call_Break] ∧
         (OnAssetReload Reload fs asset d).1 = false ∧
         (cs = [Call_Clear] ∨ cs = [] ∨
          ∃ w h, cs = [Call_FrameBufferReset w h] ∨
                 ∃ l w' h', cs = [Call_OnChange l w' h'; Call_FrameBufferReset w h])) ∨
  ((OnAssetReload Reload fs asset d).1 = true ∧
   ∃ w h, calls_since d (OnAssetReload Reload fs asset d).2 = [Call_FrameBufferReset w h] ∨
          ∃ l w' h', calls_since d (OnAssetReload Reload fs asset d).2
                     = [Call_OnChange l w' h'; Call_FrameBufferReset w h]).
Proof.
  destruct (DDFile.FileExists fs (Path asset)) eqn:He.
  2: { left. exists [Call_Clear].
       rewrite (OnAssetReload_settings_missing Reload _ _ _ He). cbn [fst snd].
       split; [| auto]. apply calls_since_app.
       rewrite calls_mGame_Break, calls_mManifestAssetStore_Clear, <- app_assoc.
       reflexivity. }
  destruct (DoFile fs (Path asset)) as [luaState |] eqn:Hd.
  2: { left. exists [].
       rewrite (OnAssetReload_unparsable Reload _ _ _ He Hd). cbn [fst snd].
       split; [| auto]. apply calls_since_app. apply calls_mGame_Break. }
  destruct (DDFile.FileExists fs (LuaState.GetString luaState "manifest" "")) eqn:Hm.
  - destruct (OnAssetReload_manifest_present_calls Reload _ _ d _ Hd Hm)
      as (w & h & Hcs).
    apply calls_since_app in Hcs. rewrite Hcs.
    destruct (OnAssetReload Reload fs asset d).1; [right | left].
    + split; [reflexivity |]. exists w, h.
      destruct (mScreenChangeListener d); [right | left]; eauto.
    + destruct (mScreenChangeListener d) as [l |].
      * eexists [_; _]. split; [reflexivity |]. split; [reflexivity |].
        right. right. exists w, h. right. eauto.
      * eexists [_]. split; [reflexivity |]. split; [reflexivity |].
        right. right. exists w, h. left. reflexivity.
  - left. exists [Call_Clear].
    rewrite (OnAssetReload_manifest_missing Reload _ _ _ _ Hd Hm). cbn [fst snd].
    split; [| auto]. apply calls_since_app.
    rewrite calls_mGame_Break, calls_mManifestAssetStore_Clear, <- app_assoc.
    rewrite (ReadInSettingsFile_parsed _ _ _ _ Hd). reflexivity.
Qed.

(** The game after a reload that fails is broken. *)
Lemma OnAssetReload_false_Broken fs asset d :
  (OnAssetReload Reload fs asset d).1 = false →
  runState (mGame (OnAssetReload Reload fs asset d).2) = Broken.
Proof.
  destruct (DDFile.FileExists fs (Path asset)) eqn:He.
  2: { rewrite (OnAssetReload_settings_missing Reload _ _ _ He). reflexivity. }
  destruct (DoFile fs (Path asset)) as [luaState |] eqn:Hd.
  2: { rewrite (OnAssetReload_unparsable Reload _ _ _ He Hd). reflexivity. }
  destruct (DDFile.FileExists fs (LuaState.GetString luaState "manifest" "")) eqn:Hm.
  - destruct (OnAssetReload_manifest_present_state _ _ d _ Hd Hm)
      as (-> & _ & _ & _ & -> & _).
    intros ->. reflexivity.
  - rewrite (OnAssetReload_manifest_missing Reload _ _ _ _ Hd Hm). reflexivity.
Qed.

(** X9: a reload that fails, for whatever reason, breaks the game
    exactly once, as its last call, and leaves it broken; a reload that
    succeeds neither breaks the game nor clears the store. *)
Theorem OnAssetReload_breaks_iff_fails fs asset d :
  Break_calls (calls_since d (OnAssetReload Reload fs asset d).2)
    = (if (OnAssetReload Reload fs asset d).1 then 0%nat else 1%nat) ∧
  ((OnAssetReload Reload fs asset d).1 = false →
   runState (mGame (OnAssetReload Reload fs asset d).2) = Broken ∧
   last (calls_since d (OnAssetReload Reload fs asset d).2) = Some Call_Break) ∧
  ((OnAssetReload Reload fs asset d).1 = true →
   Clear_calls (calls_since d (OnAssetReload Reload fs asset d).2) = 0%nat).
Proof.
  pose proof (OnAssetReload_false_Broken fs asset d) as Hb.
  destruct (OnAssetReload_calls_cases fs asset d)
    as [(cs & -> & Hf & Hcs) | (Ht & w & h & Hcs)].
  - specialize (Hb Hf). rewrite Hf. split; [| split; [| discriminate]].
    + unfold Break_calls. rewrite omap_app, length_app.
      destruct Hcs as [-> | [-> | (w & h & [-> | (l & w' & h' & ->)])]];
        reflexivity.
    + intros _. split; [exact Hb |]. apply last_snoc.
  - rewrite Ht. split; [| split; [discriminate |]].
    + destruct Hcs as [-> | (l & w' & h' & ->)]; reflexivity.
    + intros _. destruct Hcs as [-> | (l & w' & h' & ->)]; reflexivity.
Qed.

Lemma GetInt_in_range (luaState : gmap string LuaValue) key def :
  CInt.in_range def → CInt.in_range (LuaState.GetInt luaState key def).
Proof.
  intros H. unfold LuaState.GetInt.
  repeat case_match; first [apply CInt_of_Z_in_range | exact H].
Qed.

(** The settings a successful read produces are well formed as soon as
    the surface held before is made of C++ [int] values. *)
Lemma ReadSettings_wf luaState s :
  CInt.in_range (width s) → CInt.in_range (height s) →
  Settings_wf (ClampDisplay (ReadSettings luaState s)).
Proof.
  intros Hw Hh. unfold Settings_wf, display_covers_surface.
  rewrite ClampDisplay_width, ClampDisplay_height,
    ClampDisplay_displayWidth, ClampDisplay_displayHeight.
  cbn [ReadSettings width height displayWidth displayHeight].
  pose proof (GetInt_in_range luaState "width" _ Hw) as Hw'.
  pose proof (GetInt_in_range luaState "height" _ Hh) as Hh'.
  pose proof (GetInt_in_range luaState "display_width" _ Hw') as Hdw.
  pose proof (GetInt_in_range luaState "display_height" _ Hh') as Hdh.
  unfold CInt.in_range in *. repeat split; lia.
Qed.

(** Passing the surface of well-formed settings through the [unsigned
    int] parameters of [ResetRenderWindow] gives the same settings. *)
Lemma set_size_roundtrip s :
  CInt.in_range (width s) → CInt.in_range (height s) →
  set_size (CInt.of_unsigned (CInt.to_unsigned (width s)))
           (CInt.of_unsigned (CInt.to_unsigned (height s))) s = s.
Proof.
  intros Hw Hh. rewrite !CInt_unsigned_roundtrip by assumption.
  destruct s; reflexivity.
Qed.

(** The settings and the name after a reload whose settings file
    parsed, whether the reload then succeeds or not. *)
Lemma OnAssetReload_parsed_mSettings fs asset d luaState :
  DoFile fs (Path asset) = Some luaState →
  CInt.in_range (width (mSettings d)) →
  CInt.in_range (height (mSettings d)) →
  mSettings (OnAssetReload Reload fs asset d).2
    = ClampDisplay (ReadSettings luaState (mSettings d)) ∧
  mName (OnAssetReload Reload fs asset d).2
    = name (ClampDisplay (ReadSettings luaState (mSettings d))).
Proof.
  intros Hd Hw Hh.
  destruct (ReadSettings_wf luaState (mSettings d) Hw Hh) as (Hw' & Hh' & _).
  destruct (DDFile.FileExists fs (LuaState.GetString luaState "manifest" "")) eqn:Hm.
  - destruct (OnAssetReload_manifest_present_state _ _ d _ Hd Hm)
      as (_ & -> & -> & _).
    rewrite (set_size_roundtrip _ Hw' Hh'). auto.
  - rewrite (OnAssetReload_manifest_missing Reload _ _ _ _ Hd Hm).
    rewrite (ReadInSettingsFile_parsed _ _ _ _ Hd). auto.
Qed.

(** X10: the settings are committed before the manifest is looked at
    and are not rolled back.  Once the settings file has parsed, the
    settings and the name after [OnAssetReload] are the ones read from
    the document, clamped, whether the reload then succeeds, finds no
    manifest, or fails in the cascade. *)
Theorem OnAssetReload_commits_settings fs asset d luaState :
  DoFile fs (Path asset) = Some luaState →
  CInt.in_range (width (mSettings d)) →
  CInt.in_range (height (mSettings d)) →
  mSettings (OnAssetReload Reload fs asset d).2
    = mSettings (ReadInSettingsFile fs (Path asset) d).2 ∧
  mSettings (OnAssetReload Reload fs asset d).2
    = ClampDisplay (ReadSettings luaState (mSettings d)) ∧
  mName (OnAssetReload Reload fs asset d).2
    = name (mSettings (OnAssetReload Reload fs asset d).2).
Proof.
  intros Hd Hw Hh.
  destruct (OnAssetReload_parsed_mSettings fs asset d luaState Hd Hw Hh) as [-> ->].
  rewrite (ReadInSettingsFile_parsed_mSettings _ _ _ _ Hd). auto.
Qed.

(** X11: [OnAssetReload] clears the store in exactly two cases, once
    each: the settings file is missing, or it parses and names a manifest
    that is missing.  A settings file that does not parse and a cascade
    that fails clear nothing. *)
Theorem OnAssetReload_Clear_calls fs asset d :
  Clear_calls (calls_since d (OnAssetReload Reload fs asset d).2) =
    if DDFile.FileExists fs (Path asset) then
      match DoFile fs (Path asset) with
      | Some luaState =>
          if DDFile.FileExists fs (LuaState.GetString luaState "manifest" "")
          then 0%nat else 1%nat
      | None => 0%nat
      end
    else 1%nat.
Proof.
  destruct (DDFile.FileExists fs (Path asset)) eqn:He.
  2: { rewrite (OnAssetReload_settings_missing Reload _ _ _ He). cbn [snd].
       rewrite (calls_since_app d _ [Call_Clear; Call_Break]); [reflexivity |].
       rewrite calls_mGame_Break, calls_mManifestAssetStore_Clear, <- app_assoc.
       reflexivity. }
  destruct (DoFile fs (Path asset)) as [luaState |] eqn:Hd.
  2: { rewrite (OnAssetReload_unparsable Reload _ _ _ He Hd). cbn [snd].
       rewrite (calls_since_app d _ [Call_Break]); [reflexivity |].
       apply calls_mGame_Break. }
  destruct (DDFile.FileExists fs (LuaState.GetString luaState "manifest" "")) eqn:Hm.
  - destruct (OnAssetReload_manifest_present_calls Reload _ _ d _ Hd Hm)
      as (w & h & Hcs).
    apply calls_since_app in Hcs. rewrite Hcs.
    destruct (mScreenChangeListener d), (OnAssetReload Reload fs asset d).1;
      reflexivity.
  - rewrite (OnAssetReload_manifest_missing Reload _ _ _ _ Hd Hm). cbn [snd].
    rewrite (calls_since_app d _ [Call_Clear; Call_Break]); [reflexivity |].
    rewrite calls_mGame_Break, calls_mManifestAssetStore_Clear, <- app_assoc.
    rewrite (ReadInSettingsFile_parsed _ _ _ _ Hd). reflexivity.
Qed.

(** A reload keeps well-formed settings well formed. *)
Lemma OnAssetReload_preserves_wf fs asset d :
  Settings_wf (mSettings d) →
  Settings_wf (mSettings (OnAssetReload Reload fs asset d).2).
Proof.
  intros Hwf. pose proof Hwf as (Hw & Hh & _).
  destruct (DDFile.FileExists fs (Path asset)) eqn:He.
  2: { rewrite (OnAssetReload_settings_missing Reload _ _ _ He). exact Hwf. }
  destruct (DoFile fs (Path asset)) as [luaState |] eqn:Hd.
  2: { rewrite (OnAssetReload_unparsable Reload _ _ _ He Hd). exact Hwf. }
  destruct (OnAssetReload_parsed_mSettings fs asset d luaState Hd Hw Hh) as [-> _].
  apply ReadSettings_wf; assumption.
Qed.

(** The members a reload can change: never the settings asset, never
    the listener. *)
Lemma OnAssetReload_listener fs asset d :
  mScreenChangeListener (OnAssetReload Reload fs asset d).2 = mScreenChangeListener d.
Proof.
  destruct (DDFile.FileExists fs (Path asset)) eqn:He.
  2: { rewrite (OnAssetReload_settings_missing Reload _ _ _ He). reflexivity. }
  destruct (DoFile fs (Path asset)) as [luaState |] eqn:Hd.
  2: { rewrite (OnAssetReload_unparsable Reload _ _ _ He Hd). reflexivity. }
  destruct (DDFile.FileExists fs (LuaState.GetString luaState "manifest" "")) eqn:Hm.
  - apply (OnAssetReload_manifest_present_state _ _ d _ Hd Hm).
  - rewrite (OnAssetReload_manifest_missing Reload _ _ _ _ Hd Hm).
    rewrite (ReadInSettingsFile_parsed _ _ _ _ Hd). reflexivity.
Qed.

End OnAssetReload_outcomes.

Lemma OnAssetReload_true_iff_witness :
  (OnAssetReload Sample.reload_unchanged (Sample.disk_good 20)
     (mSettingsFile Sample.running) Sample.running).1 = true ∧
  (OnAssetReload Sample.reload_fails (Sample.disk_good 20)
     (mSettingsFile Sample.running) Sample.running).1 ≠ true.
Proof.
  split.
  - apply (OnAssetReload_true_iff Sample.reload_unchanged (Sample.disk_good 20)
             (mSettingsFile Sample.running) Sample.running).
    exists Sample.settings_800x480. repeat split; vm_compute; reflexivity.
  - intros H.
    apply (OnAssetReload_true_iff Sample.reload_fails (Sample.disk_good 20)
             (mSettingsFile Sample.running) Sample.running) in H
      as (luaState & _ & _ & H).
    discriminate H.
Defined.

(** The manifest is missing and the reload fails; the surface has
    become 800x480 all the same. *)
Lemma OnAssetReload_commits_settings_witness :
  (OnAssetReload Sample.reload_unchanged (Sample.disk_no_manifest_file 20)
     (mSettingsFile Sample.running) Sample.running).1 = false ∧
  width (mSettings Sample.running) = 640 ∧
  mSettings (OnAssetReload Sample.reload_unchanged (Sample.disk_no_manifest_file 20)
               (mSettingsFile Sample.running) Sample.running).2
    = ClampDisplay (ReadSettings Sample.settings_800x480 (mSettings Sample.running)).
Proof.
  split; [vm_compute; reflexivity |]. split; [reflexivity |].
  destruct (OnAssetReload_commits_settings Sample.reload_unchanged
              (Sample.disk_no_manifest_file 20) (mSettingsFile Sample.running)
              Sample.running Sample.settings_800x480) as (_ & H & _);
    [vm_compute; reflexivity
    | unfold CInt.in_range, CInt.half_modulus; simpl; lia
    | unfold CInt.in_range, CInt.half_modulus; simpl; lia
    | exact H].
Defined.

(** ** Further properties of [ForceReload] *)

Section ForceReload_outcomes.

Variable Reload :
  gmap string File → option string → ManifestAssetStore → Game →
  bool * ManifestAssetStore * Game.

Lemma mSettings_StoreReload fs path d :
  mSettings (StoreReload Reload fs path d).2 = mSettings d.
Proof.
  unfold StoreReload. destruct (Reload _ _ _ _) as [[ok st] g]. reflexivity.
Qed.

Lemma mSettings_ForceReload_react ok d :
  mSettings (ForceReload_react ok d).2 = mSettings d.
Proof.
  unfold ForceReload_react. destruct ok; cbn [negb]; repeat case_match; reflexivity.
Qed.

(** The calls of a reload extend the trace it started from. *)
Lemma OnAssetReload_calls_prefix fs asset d :
  calls (OnAssetReload Reload fs asset d).2
    = calls d ++ calls_since d (OnAssetReload Reload fs asset d).2.
Proof.
  destruct (OnAssetReload_frame Reload fs asset d) as (_ & cs & Hcs & _).
  rewrite (calls_since_app _ _ _ Hcs). exact Hcs.
Qed.

(** The cascade of a pass that finds the settings file out of date. *)
Lemma ForceReload_cascade_out_of_date fs d :
  AssetStore.IsOutOfDate fs (mSettingsFile d) = true →
  let d0 := set_mGame (Game_.ResetReloadCount (mGame d)) d in
  let r := OnAssetReload Reload fs (mSettingsFile d) d0 in
  if r.1 then
    ∃ t, AssetStore.GetModifiedTimeStamp fs (mSettingsFile d) = Some t ∧
         ForceReload_cascade Reload fs d =
           (true, record (Call_FrameBufferReset (width (mSettings r.2))
                                                (height (mSettings r.2)))
                    (mSettingsFile_SetTimeLastModified t r.2))
  else ForceReload_cascade Reload fs d = (false, r.2).
Proof.
  intros Hstale d0 r. unfold ForceReload_cascade. fold d0.
  change (mSettingsFile d0) with (mSettingsFile d). rewrite Hstale.
  unfold Asset_OnReload. fold r.
  pose proof (OnAssetReload_true_exists Reload fs (mSettingsFile d) d0) as Hex.
  destruct (OnAssetReload_frame Reload fs (mSettingsFile d) d0) as (Hfile & _).
  fold r in Hex, Hfile. change (mSettingsFile d0) with (mSettingsFile d) in Hfile.
  destruct r as [[] d1]; cbn [fst snd] in *; [| reflexivity].
  apply FileExists_true in Hex as [f Hf]; [| reflexivity].
  exists (mtime f). rewrite Hfile.
  unfold AssetStore.GetModifiedTimeStamp. rewrite Hf. cbn. auto.
Qed.

(** The cascade of a pass that finds the settings file current. *)
Lemma ForceReload_cascade_current fs d :
  AssetStore.IsOutOfDate fs (mSettingsFile d) = false →
  ForceReload_cascade Reload fs d =
    StoreReload Reload fs None (set_mGame (Game_.ResetReloadCount (mGame d)) d).
Proof.
  intros Hstale. unfold ForceReload_cascade.
  cbn [mSettingsFile set_mGame]. rewrite Hstale. reflexivity.
Qed.

(** X12: [ForceReload] keeps the settings well formed: if the four
    dimensions are C++ [int] values and the window covers the surface
    before a pass, they are and it does after the pass, whatever the disk
    holds and whatever the outcome. *)
Theorem ForceReload_preserves_Settings_wf fs d :
  Settings_wf (mSettings d) →
  Settings_wf (mSettings (ForceReload Reload fs d).2).
Proof.
  intros Hwf. unfold ForceReload.
  destruct (ForceReload_cascade Reload fs d) as [ok d1] eqn:Hc.
  rewrite mSettings_ForceReload_react.
  destruct (AssetStore.IsOutOfDate fs (mSettingsFile d)) eqn:Hstale.
  - pose proof (ForceReload_cascade_out_of_date fs d Hstale) as H.
    cbv zeta in H.
    pose proof (OnAssetReload_preserves_wf Reload fs (mSettingsFile d)
                  (set_mGame (Game_.ResetReloadCount (mGame d)) d) Hwf) as Hwf'.
    destruct (OnAssetReload Reload fs (mSettingsFile d) _) as [[] d2];
      cbn [fst snd] in *.
    + destruct H as (t & _ & H). rewrite H in Hc. injection Hc as <- <-. exact Hwf'.
    + rewrite H in Hc. injection Hc as <- <-. exact Hwf'.
  - rewrite (ForceReload_cascade_current fs d Hstale) in Hc.
    pose proof (mSettings_StoreReload fs None
                  (set_mGame (Game_.ResetReloadCount (mGame d)) d)) as Hs.
    rewrite Hc in Hs. cbn [snd mSettings set_mGame] in Hs. rewrite Hs. exact Hwf.
Qed.

(** X13: the value [ForceReload] returns is the value [IsRunning]
    returns after it: a pass that succeeds leaves the game running, and
    ready, and a pass that fails leaves it not running. *)
Theorem ForceReload_result_is_IsRunning fs d :
  IsRunning (ForceReload Reload fs d).2 = (ForceReload Reload fs d).1 ∧
  ((ForceReload Reload fs d).1 = true →
   Game_.IsReady (mGame (ForceReload Reload fs d).2) = true).
Proof.
  unfold ForceReload, IsRunning.
  destruct (ForceReload_cascade Reload fs d) as [[] d1];
    unfold ForceReload_react; cbn [negb].
  - destruct (Game_.GetReloadCount (mGame d1) >? 0); cbn [orb].
    + split; reflexivity.
    + destruct (Game_.IsRunning (mGame d1)) eqn:Hrun; cbn [negb].
      * destruct (Game_.IsReady (mGame d1)) eqn:Hready; cbn [negb fst snd].
        -- split; [exact Hrun | intros _; exact Hready].
        -- split; reflexivity.
      * split; reflexivity.
  - split; [reflexivity | discriminate].
Qed.

(** X14: a pass that finds the settings file current does not read
    it.  The settings, the name, the settings asset and the listener are
    left as they were, the outcome is the outcome of the manifest cascade
    on the retained path, and the only call made is one [Break], one
    [Reset], or none. *)
Theorem ForceReload_current_settings_untouched fs d :
  AssetStore.IsOutOfDate fs (mSettingsFile d) = false →
  mSettings (ForceReload Reload fs d).2 = mSettings d ∧
  mName (ForceReload Reload fs d).2 = mName d ∧
  mSettingsFile (ForceReload Reload fs d).2 = mSettingsFile d ∧
  mScreenChangeListener (ForceReload Reload fs d).2 = mScreenChangeListener d ∧
  (ForceReload Reload fs d).1
    = (Reload fs None (mManifestAssetStore d)
         (Game_.ResetReloadCount (mGame d))).1.1 ∧
  (calls_since d (ForceReload Reload fs d).2 = [Call_Break] ∧
   (ForceReload Reload fs d).1 = false ∨
   calls_since d (ForceReload Reload fs d).2 = [Call_Reset] ∧
   (ForceReload Reload fs d).1 = true ∨
   calls_since d (ForceReload Reload fs d).2 = [] ∧
   (ForceReload Reload fs d).1 = true).
Proof.
  intros Hstale. unfold ForceReload.
  rewrite (ForceReload_cascade_current fs d Hstale). unfold StoreReload.
  cbn [mManifestAssetStore mGame set_mGame].
  destruct (Reload fs None (mManifestAssetStore d) (Game_.ResetReloadCount (mGame d)))
    as [[[] st] g]; unfold ForceReload_react; cbn [negb fst snd].
  - repeat case_match; cbn [fst snd]; repeat (split; [reflexivity |]).
    + right. left. split; [| reflexivity]. apply calls_since_app. reflexivity.
    + right. left. split; [| reflexivity]. apply calls_since_app. reflexivity.
    + right. right. split; [| reflexivity]. apply calls_since_app.
      symmetry. apply app_nil_r.
  - repeat (split; [reflexivity |]).
    left. split; [| reflexivity]. apply calls_since_app. reflexivity.
Qed.

(** X15: a pass that finds the settings file out of date and
    succeeds stores the file's modification time in the settings asset,
    by one [SetTimeLastModified] call, and leaves the asset's name, type
    and path alone; the same disk then no longer makes the settings out
    of date. *)
Theorem ForceReload_success_makes_current fs d :
  AssetStore.IsOutOfDate fs (mSettingsFile d) = true →
  (ForceReload Reload fs d).1 = true →
  ∃ t,
    AssetStore.GetModifiedTimeStamp fs (mSettingsFile d) = Some t ∧
    mSettingsFile (ForceReload Reload fs d).2
      = Asset_SetTimeLastModified t (mSettingsFile d) ∧
    SetTimeLastModified_calls (calls_since d (ForceReload Reload fs d).2) = [t] ∧
    AssetStore.IsOutOfDate fs (mSettingsFile (ForceReload Reload fs d).2) = false.
Proof.
  intros Hstale Hok. rewrite ForceReload_result in Hok.
  pose proof (ForceReload_cascade_out_of_date fs d Hstale) as H. cbv zeta in H.
  destruct (OnAssetReload_frame Reload fs (mSettingsFile d)
              (set_mGame (Game_.ResetReloadCount (mGame d)) d))
    as (Hfile & cs & Hcs & Hnone & _).
  cbn [mSettingsFile calls set_mGame] in Hfile, Hcs.
  destruct (OnAssetReload Reload fs (mSettingsFile d) _) as [[] d1];
    cbn [fst snd] in *.
  2: { rewrite H in Hok. discriminate Hok. }
  destruct H as (t & Ht & Hc). exists t. split; [exact Ht |].
  unfold ForceReload. rewrite Hc.
  match goal with
  | |- context [ForceReload_react true ?x] =>
      destruct (ForceReload_react_frame true x) as (Hrf & cs' & Hrc & Hrn)
  end.
  rewrite Hrf. cbn [mSettingsFile record mSettingsFile_SetTimeLastModified
                    set_mSettingsFile]. rewrite Hfile.
  split; [reflexivity |]. split.
  - rewrite (calls_since_app d _
               (cs ++ [Call_SetTimeLastModified t;
                       Call_FrameBufferReset (width (mSettings d1))
                                             (height (mSettings d1))] ++ cs')).
    + unfold SetTimeLastModified_calls in *. rewrite !omap_app, Hnone, Hrn.
      reflexivity.
    + rewrite Hrc. cbn [calls record mSettingsFile_SetTimeLastModified
                        set_mSettingsFile mSettings].
      rewrite Hcs, <- !app_assoc. reflexivity.
  - unfold AssetStore.IsOutOfDate, AssetStore.GetModifiedTimeStamp in *.
    cbn [Asset_SetTimeLastModified Path LastModified]. rewrite Ht.
    apply Z.ltb_irrefl.
Qed.

(** X16: when the settings file is out of date and its reload fails,
    the game is broken twice: once by [OnAssetReload] and once more by
    [ForceReload], as the last two calls of the pass. *)
Theorem ForceReload_failed_reload_breaks_twice fs d :
  AssetStore.IsOutOfDate fs (mSettingsFile d) = true →
  (Asset_OnReload Reload fs (mSettingsFile d)
     (set_mGame (Game_.ResetReloadCount (mGame d)) d)).1 = false →
  Break_calls (calls_since d (ForceReload Reload fs d).2) = 2%nat ∧
  ∃ cs, calls_since d (ForceReload Reload fs d).2 = cs ++ [Call_Break; Call_Break].
Proof.
  intros Hstale Hfail.
  rewrite (ForceReload_failed_reload Reload fs d Hstale Hfail). cbn [snd].
  unfold Asset_OnReload in Hfail.
  pose proof (OnAssetReload_calls_prefix fs (mSettingsFile d)
                (set_mGame (Game_.ResetReloadCount (mGame d)) d)) as Hpre.
  destruct (OnAssetReload_calls_cases Reload fs (mSettingsFile d)
              (set_mGame (Game_.ResetReloadCount (mGame d)) d))
    as [(cs & Hcs & _ & Hshape) | (Ht & _)]; [| congruence].
  rewrite Hcs in Hpre. cbn [calls set_mGame] in Hpre.
  rewrite (calls_since_app d _ (cs ++ [Call_Break; Call_Break])).
  - split; [| eauto]. unfold Break_calls. rewrite omap_app, length_app.
    destruct Hshape as [-> | [-> | (w & h & [-> | (l & w' & h' & ->)])]];
      reflexivity.
  - rewrite calls_mGame_Break, Hpre, <- !app_assoc. reflexivity.
Qed.

End ForceReload_outcomes.

(** A pass over a settings file whose window is too small. *)
Lemma ForceReload_preserves_Settings_wf_witness :
  Settings_wf (mSettings Sample.running) ∧
  Settings_wf (mSettings (ForceReload Sample.reload_unchanged
                            (Sample.disk_small_window 20) Sample.running).2).
Proof.
  assert (H : Settings_wf (mSettings Sample.running)).
  { unfold Settings_wf, display_covers_surface, CInt.in_range, CInt.half_modulus.
    simpl. lia. }
  split; [exact H |].
  exact (ForceReload_preserves_Settings_wf Sample.reload_unchanged
           (Sample.disk_small_window 20) Sample.running H).
Defined.

(** The settings file on disk asks for 800x480 but has not been saved
    since the last load: the pass leaves the surface at 640x360. *)
Lemma ForceReload_current_settings_untouched_witness :
  mSettings (ForceReload Sample.reload_unchanged (Sample.disk_good 10)
               Sample.running).2 = mSettings Sample.running ∧
  width (mSettings Sample.running) = 640.
Proof.
  split; [| reflexivity].
  apply (ForceReload_current_settings_untouched Sample.reload_unchanged
           (Sample.disk_good 10) Sample.running).
  vm_compute; reflexivity.
Defined.

Lemma ForceReload_success_makes_current_witness :
  ∃ t,
    AssetStore.GetModifiedTimeStamp (Sample.disk_good 20)
      (mSettingsFile Sample.running) = Some t ∧
    mSettingsFile (ForceReload Sample.reload_unchanged (Sample.disk_good 20)
                     Sample.running).2
      = Asset_SetTimeLastModified t (mSettingsFile Sample.running) ∧
    SetTimeLastModified_calls
      (calls_since Sample.running
         (ForceReload Sample.reload_unchanged (Sample.disk_good 20)
            Sample.running).2) = [t] ∧
    AssetStore.IsOutOfDate (Sample.disk_good 20)
      (mSettingsFile (ForceReload Sample.reload_unchanged (Sample.disk_good 20)
                        Sample.running).2) = false.
Proof.
  apply (ForceReload_success_makes_current Sample.reload_unchanged
           (Sample.disk_good 20) Sample.running);
    vm_compute; reflexivity.
Defined.

Lemma ForceReload_failed_reload_breaks_twice_witness :
  Break_calls
    (calls_since Sample.running
       (ForceReload Sample.reload_unchanged (Sample.disk_unparsable 20)
          Sample.running).2) = 2%nat.
Proof.
  apply (ForceReload_failed_reload_breaks_twice Sample.reload_unchanged
           (Sample.disk_unparsable 20) Sample.running);
    vm_compute; reflexivity.
Defined.
